(** * run_agentetic_app.py: the orchestration script, embedded and verified

    The script wires two external agents together: it prints a fixed dataset
    prompt, checks that the data file exists, constructs a [FileAccessAgent]
    and a [PythonExecAgent], seeds the second with context and then answers
    console questions in a loop, releasing both agents in a [finally] block.

    The embedding is a small state-and-exception monad.  Everything outside
    the script (the import of the agent modules, [os.path.exists], the agent
    constructors and methods, the console) is an oracle in a [world] record;
    every interaction is appended to a history, and the oracles may depend on
    the history so far, so stateful collaborators are covered.  Exceptions
    are values of [exn], classified as Python classifies them: [Exception]
    and its subclasses on one side, [KeyboardInterrupt], [SystemExit] and
    other direct [BaseException] subclasses on the other.  An interrupt is
    modelled where the script waits: as the outcome of a call it makes.

    A Python [str] is modelled by the bytes of its UTF-8 encoding, so every
    text the console can deliver is a [string] here.  [strip] removes the
    encodings of all the characters [str.strip] removes, not only the ASCII
    ones. *)

From Stdlib Require Import List String Ascii ZArith Bool Arith Lia.
Import ListNotations.
Local Open Scope string_scope.
Local Open Scope list_scope.

(** ** Python values the script handles *)

Module Py.

(** The exception classes the script distinguishes.  The first three are
    subclasses of [Exception]; the last three derive from [BaseException]
    directly. *)
Inductive exn : Type :=
| ImportError
| EOFError
| OtherException (name : string)
| KeyboardInterrupt
| SystemExit (code : Z)
| OtherBaseException (name : string).

(** [isinstance(e, Exception)] *)
Definition is_Exception (e : exn) : bool :=
  match e with
  | ImportError | EOFError | OtherException _ => true
  | KeyboardInterrupt | SystemExit _ | OtherBaseException _ => false
  end.

Definition is_ImportError (e : exn) : bool :=
  match e with ImportError => true | _ => false end.

Definition is_EOFError (e : exn) : bool :=
  match e with EOFError => true | _ => false end.

Definition is_KeyboardInterrupt (e : exn) : bool :=
  match e with KeyboardInterrupt => true | _ => false end.

(** What a call does: it returns a value or raises. *)
Inductive outcome (A : Type) : Type :=
| Returns (a : A)
| Raises (e : exn).
Arguments Returns {A} a.
Arguments Raises {A} e.

(** The two collaborator classes. *)
Inductive agent : Type := FileAccessAgent | PythonExecAgent.

Definition agent_eqb (a b : agent) : bool :=
  match a, b with
  | FileAccessAgent, FileAccessAgent => true
  | PythonExecAgent, PythonExecAgent => true
  | _, _ => false
  end.

(** The value of the local variables [file_ingestion_agent] and
    [data_analysis_agent]: [None], or an instance of an agent class. *)
Inductive pyvalue : Type :=
| PyNone
| PyAgent (a : agent).

(** Modelled from the spec: the agent classes are not part of this source
    file; the collaborator contract lists a constructor, [task],
    [add_context] and [cleanup] and neither [__bool__] nor [__len__], so an
    agent instance tests true, as any plain object does.  [None] tests
    false. *)
Definition truthy (v : pyvalue) : bool :=
  match v with
  | PyNone => false
  | PyAgent _ => true
  end.

(** *** Strings *)

Definition nl : string := String (ascii_of_nat 10) EmptyString.
Definition tab : string := String (ascii_of_nat 9) EmptyString.

(** The string with the given byte values. *)
Definition bytes (l : list nat) : string :=
  fold_right (fun n s => String (ascii_of_nat n) s) EmptyString l.

(** The characters [str.isspace] accepts, which are the ones [str.strip]
    removes, each by its UTF-8 encoding: U+0009..U+000D, U+001C..U+001F,
    U+0020, U+0085, U+00A0, U+1680, U+2000..U+200A, U+2028, U+2029, U+202F,
    U+205F and U+3000. *)
Definition whitespace : list string :=
  map bytes
      [[9]; [10]; [11]; [12]; [13]; [28]; [29]; [30]; [31]; [32];
       [194; 133]; [194; 160]; [225; 154; 128];
       [226; 128; 128]; [226; 128; 129]; [226; 128; 130]; [226; 128; 131];
       [226; 128; 132]; [226; 128; 133]; [226; 128; 134]; [226; 128; 135];
       [226; 128; 136]; [226; 128; 137]; [226; 128; 138];
       [226; 128; 168]; [226; 128; 169]; [226; 128; 175];
       [226; 129; 159]; [227; 128; 128]].

(** [u] is one whitespace character. *)
Definition is_space (u : string) : bool := existsb (String.eqb u) whitespace.

(** [s.lstrip()]: drops whitespace characters, of one, two or three bytes,
    from the front. *)
Fixpoint lstrip (s : string) : string :=
  match s with
  | EmptyString => s
  | String a r1 =>
      if is_space (String a EmptyString) then lstrip r1
      else
        match r1 with
        | EmptyString => s
        | String b r2 =>
            if is_space (String a (String b EmptyString)) then lstrip r2
            else
              match r2 with
              | EmptyString => s
              | String c r3 =>
                  if is_space (String a (String b (String c EmptyString)))
                  then lstrip r3
                  else s
              end
        end
  end.

(** [s.rstrip()]: from the right, what is left of the tail with the byte in
    front of it is dropped as soon as it is one whitespace character. *)
Fixpoint rstrip (s : string) : string :=
  match s with
  | EmptyString => EmptyString
  | String a r =>
      let u := String a (rstrip r) in
      if is_space u then EmptyString else u
  end.

(** [s.strip()] *)
Definition strip (s : string) : string := rstrip (lstrip s).

Definition lower_char (c : ascii) : ascii :=
  let n := nat_of_ascii c in
  if ((65 <=? n) && (n <=? 90))%nat then ascii_of_nat (n + 32) else c.

(** [s.lower()], as far as line 97 needs it: the ASCII letters are
    lowercased and every other byte is kept.  Python also maps letters
    outside ASCII, none of them to a letter of [exit] alone (U+212A goes to
    [k], U+0130 to [i] followed by a combining dot, the others to code
    points outside ASCII): whether the result is [exit] is the same. *)
Fixpoint lower (s : string) : string :=
  match s with
  | EmptyString => EmptyString
  | String c s' => String (lower_char c) (lower s')
  end.

(** *** [os.path.join], POSIX flavour *)

Definition starts_with_sep (s : string) : bool :=
  match s with
  | String c _ => Ascii.eqb c "/"%char
  | EmptyString => false
  end.

Fixpoint ends_with_sep (s : string) : bool :=
  match s with
  | EmptyString => false
  | String c EmptyString => Ascii.eqb c "/"%char
  | String _ s' => ends_with_sep s'
  end.

Definition join_step (path b : string) : string :=
  if starts_with_sep b then b
  else if (path =? EmptyString) || ends_with_sep path then path ++ b
  else path ++ "/" ++ b.

Definition os_path_join (a : string) (p : list string) : string :=
  fold_left join_step p a.

End Py.
Import Py.

(** ** Observable events *)

Inductive level : Type := INFO | ERROR.

(** One entry per interaction of the script with its surroundings, in
    program order.  Calls carry their arguments and what they did. *)
Inductive event : Type :=
| Import (r : outcome unit)
| Print (s : string)
| Log (l : level) (s : string)
| LogException (e : exn)
| PathExists (p : string) (b : bool)
| Construct (a : agent) (kwargs : list (string * string)) (r : outcome unit)
| Task (a : agent) (arg : string) (r : outcome string)
| AddContext (a : agent) (arg : string) (r : outcome unit)
| Cleanup (a : agent) (r : outcome unit)
| Input (prompt : string) (r : outcome string).

(** The surroundings of one run.  [stdin] lists what the successive
    [input()] calls do; once it is exhausted [input()] raises [EOFError]. *)
Record world : Type := mkWorld {
  project_root : string;
  import_agents : outcome unit;
  os_path_exists : string -> bool;
  agent_new : agent -> list event -> outcome unit;
  agent_task : agent -> string -> list event -> outcome string;
  agent_add_context : agent -> string -> list event -> outcome unit;
  agent_cleanup : agent -> list event -> outcome unit;
  stdin : list (outcome string)
}.

(** The script's mutable state: the history of events and the two local
    variables of [main] that the [finally] block reads. *)
Record state : Type := mkState {
  history : list event;
  file_ingestion_agent : pyvalue;
  data_analysis_agent : pyvalue
}.

Definition initial : state := mkState [] PyNone PyNone.

(** ** The monad: state and exceptions *)

Definition M (A : Type) : Type := state -> outcome A * state.

Definition ret {A} (a : A) : M A := fun st => (Returns a, st).

Definition raise {A} (e : exn) : M A := fun st => (Raises e, st).

Definition bind {A B} (m : M A) (k : A -> M B) : M B :=
  fun st =>
    match m st with
    | (Returns a, st') => k a st'
    | (Raises e, st') => (Raises e, st')
    end.

Declare Scope py_scope.
Delimit Scope py_scope with py.
Notation "x <- m ;; k" := (bind m (fun x => k))
  (at level 61, m at next level, right associativity) : py_scope.
Notation "m ;; k" := (bind m (fun _ => k))
  (at level 61, right associativity) : py_scope.
Local Open Scope py_scope.

(** The state after further events; the variables are untouched. *)
Definition extend (st : state) (evs : list event) : state :=
  mkState (history st ++ evs) (file_ingestion_agent st) (data_analysis_agent st).

Definition emit (e : event) : M unit :=
  fun st => (Returns tt, extend st [e]).

Definition get_history : M (list event) := fun st => (Returns (history st), st).

(** Lets the outcome of an external call take effect. *)
Definition lift {A} (r : outcome A) : M A :=
  match r with
  | Returns a => ret a
  | Raises e => raise e
  end.

(** [try: body  except <classes>: handler]; [handler e] is [None] when no
    [except] clause matches [e], and the exception propagates. *)
Definition try_except {A} (body : M A) (handler : exn -> option (M A)) : M A :=
  fun st =>
    match body st with
    | (Returns a, st') => (Returns a, st')
    | (Raises e, st') =>
        match handler e with
        | Some h => h st'
        | None => (Raises e, st')
        end
    end.

(** [try: body  finally: fin].  The [finally] block runs however the body
    ended; an exception of its own replaces the body's. *)
Definition try_finally {A} (body : M A) (fin : M unit) : M A :=
  fun st =>
    match body st with
    | (r, st') =>
        match fin st' with
        | (Returns _, st'') => (r, st'')
        | (Raises e, st'') => (Raises e, st'')
        end
    end.

Definition print (s : string) : M unit := emit (Print s).
Definition logging_info (s : string) : M unit := emit (Log INFO s).
Definition logging_error (s : string) : M unit := emit (Log ERROR s).
Definition logging_exception (e : exn) : M unit := emit (LogException e).
Definition sys_exit {A} (code : Z) : M A := raise (SystemExit code).

Definition set_file_ingestion_agent (v : pyvalue) : M unit :=
  fun st => (Returns tt, mkState (history st) v (data_analysis_agent st)).

Definition set_data_analysis_agent (v : pyvalue) : M unit :=
  fun st => (Returns tt, mkState (history st) (file_ingestion_agent st) v).

Definition get_file_ingestion_agent : M pyvalue :=
  fun st => (Returns (file_ingestion_agent st), st).

Definition get_data_analysis_agent : M pyvalue :=
  fun st => (Returns (data_analysis_agent st), st).

(** ** The script *)

(** The dataset prompt of [main], lines 47-60. *)
Definition prompt : string :=
  "Use the file traffic_accidents.csv for your analysis. The column names are:" ++ nl ++ nl ++
  "Variable" ++ tab ++ "Description" ++ nl ++
  "accidents" ++ tab ++ "Number of recorded accidents, as a positive integer" ++ nl ++
  "traffic_fine_amount" ++ tab ++ "Traffic fine amount, expressed in thousands of USD" ++ nl ++
  "traffic_density" ++ tab ++ "Traffic density index, scale from 0 (low) to 10 (high)" ++ nl ++
  "traffic_lights" ++ tab ++ "Proportion of traffic lights in the area (0 to 1)" ++ nl ++
  "pavement_quality" ++ tab ++ "Pavement quality, scale from 0 (very poor) to 5 (excellent)" ++ nl ++
  "urban_area" ++ tab ++ "Urban area (1) or rural area (0), as an integer" ++ nl ++
  "average_speed" ++ tab ++ "Average speed of vehicles in km/h" ++ nl ++
  "rain_intensity" ++ tab ++ "Rain intensity, scale from 0 (no rain) to 3 (heavy rain)" ++ nl ++
  "vehicle_count" ++ tab ++ "Estimated number of vehicles, in thousands, as an integer" ++ nl ++
  "time_of_day" ++ tab ++ "Time of day in 24-hour format (0 to 24)".

Definition msg_import_failed : string :=
  "Failed to import agent modules. Verify that PYTHONPATH and project structure are set correctly.".
Definition msg_setup : string := "Setup:".
Definition msg_setting_up : string := "Setting up the agents...".
Definition msg_file_missing : string :=
  "Error: Required data file not found. Please ensure traffic_accidents.csv exists in the resources/data directory.".
Definition msg_understanding : string := "Understanding the contents of the file...".
Definition msg_type_question : string :=
  nl ++ "Type your question related to the data in the file (or type 'exit' to exit):".
Definition input_prompt : string := "Your question: ".
Definition msg_exiting : string := "Exiting the application.".
Definition msg_generating : string :=
  "Generating dynamic tools and executing code interpreter...".
Definition msg_output : string := "Output:".
Definition msg_task_error : string :=
  "Error during dynamic code generation or execution.".
Definition msg_try_again : string :=
  "An error occurred while processing your request. Please try again.".
Definition msg_cleanup_file_error : string := "Error cleaning up file ingestion agent".
Definition msg_cleanup_data_error : string := "Error cleaning up data analysis agent".
Definition msg_interrupted : string :=
  nl ++ "Application interrupted by user. Exiting gracefully.".
Definition msg_unexpected : string := "Unexpected error in the main execution loop.".

(** The keyword arguments [PythonExecAgent] is constructed with. *)
Definition python_exec_kwargs : list (string * string) :=
  [("model_name", "o3-mini"); ("reasoning_effort", "high")].

(** How a loop iteration ends: it falls through to the next one or leaves
    the loop with [break]. *)
Inductive control : Type := Continue | Break.

Section Script.

Variable w : world.

(** [os.path.join(project_root, "resources", "data", "traffic_accidents.csv")] *)
Definition csv_path : string :=
  os_path_join (project_root w) ["resources"; "data"; "traffic_accidents.csv"].

(** *** External calls: ask the oracle, record the event, take the effect *)

Definition py_import : M unit :=
  let r := import_agents w in
  emit (Import r);; lift r.

Definition path_exists (p : string) : M bool :=
  let b := os_path_exists w p in
  emit (PathExists p b);; ret b.

Definition construct (a : agent) (kwargs : list (string * string)) : M pyvalue :=
  h <- get_history;;
  let r := agent_new w a h in
  emit (Construct a kwargs r);;
  lift r;;
  ret (PyAgent a).

(** A method call on the value of a variable; on [None] the attribute
    lookup fails. *)
Definition method_task (v : pyvalue) (arg : string) : M string :=
  match v with
  | PyNone => raise (OtherException "AttributeError")
  | PyAgent a =>
      h <- get_history;;
      let r := agent_task w a arg h in
      emit (Task a arg r);; lift r
  end.

Definition method_add_context (v : pyvalue) (arg : string) : M unit :=
  match v with
  | PyNone => raise (OtherException "AttributeError")
  | PyAgent a =>
      h <- get_history;;
      let r := agent_add_context w a arg h in
      emit (AddContext a arg r);; lift r
  end.

Definition method_cleanup (v : pyvalue) : M unit :=
  match v with
  | PyNone => raise (OtherException "AttributeError")
  | PyAgent a =>
      h <- get_history;;
      let r := agent_cleanup w a h in
      emit (Cleanup a r);; lift r
  end.

(** [input(prompt)] when the console does [r]. *)
Definition py_input (p : string) (r : outcome string) : M string :=
  emit (Input p r);; lift r.

(** *** The [except] clauses

    Each handler tells, for a raised exception, what the matching [except]
    clause does, or [None] when no clause matches. *)

(** [except ImportError as e], lines 38-41 *)
Definition import_handler (e : exn) : option (M unit) :=
  if is_ImportError e
  then Some (logging_error msg_import_failed;;
             logging_exception e;;
             sys_exit 1)
  else None.

(** [except (EOFError, KeyboardInterrupt)], lines 93-95; the [break] is
    passed on as [None] in place of the stripped line. *)
Definition read_handler (e : exn) : option (M (option string)) :=
  if is_EOFError e || is_KeyboardInterrupt e
  then Some (print (nl ++ msg_exiting);; ret None)
  else None.

(** [except Exception as e], lines 108-111 *)
Definition task_handler (e : exn) : option (M unit) :=
  if is_Exception e
  then Some (logging_error msg_task_error;;
             logging_exception e;;
             print msg_try_again)
  else None.

(** [except Exception as e], lines 118-120 and 125-127 *)
Definition cleanup_handler (msg : string) (e : exn) : option (M unit) :=
  if is_Exception e
  then Some (logging_error msg;; logging_exception e)
  else None.

(** [except KeyboardInterrupt] and [except Exception as e], lines 129-134 *)
Definition outer_handler (e : exn) : option (M unit) :=
  if is_KeyboardInterrupt e
  then Some (print msg_interrupted)
  else if is_Exception e
  then Some (logging_error msg_unexpected;;
             logging_exception e;;
             sys_exit 1)
  else None.

(** *** The interactive loop, lines 89-111 *)

(** One iteration of [while True], given what the console read does. *)
Definition loop_body (r : outcome string) : M control :=
  print msg_type_question;;
  read <- try_except
            (line <- py_input input_prompt r;; ret (Some (strip line)))
            read_handler;;
  match read with
  | None => ret Break
  | Some user_input =>
      if lower user_input =? "exit"
      then print msg_exiting;; ret Break
      else
        print ("User question: " ++ user_input);;
        print msg_generating;;
        try_except
          (agent <- get_data_analysis_agent;;
           data_analysis_agent_output <- method_task agent user_input;;
           print msg_output;;
           print data_analysis_agent_output)
          task_handler;;
        ret Continue
  end.

(** The loop over the console: one read per iteration; a read past the end
    of [stdin] raises [EOFError], on which the body breaks. *)
Fixpoint interactive_loop (ins : list (outcome string)) : M unit :=
  match ins with
  | [] => _ <- loop_body (Raises EOFError);; ret tt
  | r :: rest =>
      c <- loop_body r;;
      match c with
      | Break => ret tt
      | Continue => interactive_loop rest
      end
  end.

(** *** The [finally] block, lines 113-127 *)

Definition cleanup_block : M unit :=
  file_agent <- get_file_ingestion_agent;;
  (if truthy file_agent
   then try_except (method_cleanup file_agent) (cleanup_handler msg_cleanup_file_error)
   else ret tt);;
  data_agent <- get_data_analysis_agent;;
  (if truthy data_agent
   then try_except (method_cleanup data_agent) (cleanup_handler msg_cleanup_data_error)
   else ret tt).

(** *** The body of the inner [try], lines 78-111 *)

Definition agents_session : M unit :=
  fa <- construct FileAccessAgent [];;
  set_file_ingestion_agent fa;;
  da <- construct PythonExecAgent python_exec_kwargs;;
  set_data_analysis_agent da;;
  print msg_understanding;;
  file_agent <- get_file_ingestion_agent;;
  file_ingestion_agent_output <- method_task file_agent prompt;;
  data_agent <- get_data_analysis_agent;;
  method_add_context data_agent prompt;;
  data_agent <- get_data_analysis_agent;;
  method_add_context data_agent file_ingestion_agent_output;;
  interactive_loop (stdin w).

(** *** The body of the outer [try], lines 46-127 *)

Definition main_body : M unit :=
  print msg_setup;;
  print prompt;;
  logging_info msg_setting_up;;
  found <- path_exists csv_path;;
  (if negb found
   then logging_error ("Required file not found: " ++ csv_path);;
        print msg_file_missing;;
        sys_exit 1
   else ret tt);;
  set_file_ingestion_agent PyNone;;
  set_data_analysis_agent PyNone;;
  try_finally agents_session cleanup_block.

(** *** [main], lines 44-134 *)

Definition main : M unit := try_except main_body outer_handler.

(** *** The module, run as a script: the import guard, then [main()] *)

Definition script : M unit :=
  try_except py_import import_handler;;
  main.

(** The status the interpreter exits with: 0 when the script runs to its
    end, the code of a [SystemExit], 130 for an interrupt nobody caught, 1
    for any other exception that escapes. *)
Definition exit_status (r : outcome unit) : Z :=
  match r with
  | Returns _ => 0
  | Raises (SystemExit code) => code
  | Raises KeyboardInterrupt => 130
  | Raises _ => 1
  end.

(** One run of the process: its exit status and everything it did. *)
Definition run : Z * list event :=
  let (r, st) := script initial in (exit_status r, history st).

Definition status : Z := fst run.
Definition trace : list event := snd run.

End Script.

(** ** Observations on a history *)

Definition is_construct_call (e : event) : bool :=
  match e with Construct _ _ _ => true | _ => false end.

(** A constructor call that returned: the handle exists from here on. *)
Definition is_constructed (a : agent) (e : event) : bool :=
  match e with Construct b _ (Returns _) => agent_eqb a b | _ => false end.

Definition is_cleanup (a : agent) (e : event) : bool :=
  match e with Cleanup b _ => agent_eqb a b | _ => false end.

Definition is_task (a : agent) (e : event) : bool :=
  match e with Task b _ _ => agent_eqb a b | _ => false end.

Definition is_add_context (e : event) : bool :=
  match e with AddContext _ _ _ => true | _ => false end.

Definition is_input (e : event) : bool :=
  match e with Input _ _ => true | _ => false end.

Definition is_print_of (s : string) (e : event) : bool :=
  match e with Print s' => s' =? s | _ => false end.

(** An entry of the log with the message [s], at any level. *)
Definition is_log_of (s : string) (e : event) : bool :=
  match e with Log _ s' => s' =? s | _ => false end.

(** How many events of a history satisfy [p]. *)
Definition count (p : event -> bool) (tr : list event) : nat :=
  List.length (filter p tr).

(** ** Predicates and sample worlds the theorems are stated with *)

(** [quiet P m]: whatever the state, [m] leaves the two variables alone and
    appends only events that satisfy [P]. *)
Definition quiet (P : event -> bool) {A : Type} (m : M A) : Prop :=
  forall st, exists evs, snd (m st) = extend st evs /\ forallb P evs = true.

(** The reads on which the loop stops: end of input or an interrupt during
    the read, or a line that is [exit] once stripped and lowercased. *)
Definition exit_read (r : outcome string) : bool :=
  match r with
  | Returns line => lower (strip line) =? "exit"
  | Raises e => is_EOFError e || is_KeyboardInterrupt e
  end.

(** The farewell printed on such a read. *)
Definition farewell (r : outcome string) : string :=
  match r with
  | Returns _ => msg_exiting
  | Raises _ => nl ++ msg_exiting
  end.

(** What a turn does up to the [task] call, for a line that is a question. *)
Definition question_events (line : string) : list event :=
  [Print msg_type_question; Input input_prompt (Returns line);
   Print ("User question: " ++ strip line); Print msg_generating].

(** What follows the [task] call of a turn, by its outcome. *)
Definition answer_events (o : outcome string) : list event :=
  match o with
  | Returns out => [Print msg_output; Print out]
  | Raises e =>
      if is_Exception e
      then [Log ERROR msg_task_error; LogException e; Print msg_try_again]
      else []
  end.

(** Events of the session proper: neither a constructor call nor a cleanup,
    nor the import or the file check. *)
Definition session_event (e : event) : bool :=
  match e with
  | Construct _ _ _ | Cleanup _ _ | Import _ | PathExists _ _ => false
  | _ => true
  end.

(** No [cleanup()] call is itself interrupted: whenever it is called, it
    returns or raises an [Exception]. *)
Definition cleanup_benign (w : world) : Prop :=
  forall a h,
    match agent_cleanup w a h with
    | Returns _ => True
    | Raises e => is_Exception e = true
    end.

(** The [cleanup()] of agent [a] is not interrupted: whenever it is called,
    it returns or raises an [Exception]. *)
Definition cleanup_not_interrupted (w : world) (a : agent) : Prop :=
  forall h,
    match agent_cleanup w a h with
    | Returns _ => True
    | Raises e => is_Exception e = true
    end.

(** What a [cleanup()] call raises is an [Exception] or a
    [KeyboardInterrupt]: no [SystemExit], no other [BaseException]. *)
Definition cleanup_no_exit (w : world) : Prop :=
  forall a h e,
    agent_cleanup w a h = Raises e ->
    is_Exception e = true \/ e = KeyboardInterrupt.

(** 1 when the variable holds an instance of [a], else 0. *)
Definition holds (v : pyvalue) (a : agent) : nat :=
  match v with
  | PyAgent b => if agent_eqb a b then 1 else 0
  | PyNone => 0
  end.

(** Events of the [finally] block: cleanup calls and the log entries of
    their handlers. *)
Definition teardown_event (e : event) : bool :=
  match e with
  | Cleanup _ _ | Log ERROR _ | LogException _ => true
  | _ => false
  end.

(** The same, with the messages: the only log entries of the [finally]
    block are the two cleanup errors. *)
Definition cleanup_event (e : event) : bool :=
  match e with
  | Cleanup _ _ | LogException _ => true
  | Log ERROR s => (s =? msg_cleanup_file_error) || (s =? msg_cleanup_data_error)
  | _ => false
  end.

(** Events of the [finally] block and of the [except] clauses of [main]:
    cleanup calls, error log entries and the graceful message. *)
Definition closing_event (e : event) : bool :=
  match e with
  | Cleanup _ _ | Log ERROR _ | LogException _ => true
  | Print s => s =? msg_interrupted
  | _ => false
  end.

(** What [try: ... finally: ...] ends with when the body ended with [r]
    and the [finally] block with [rc]. *)
Definition finally_result (r rc : outcome unit) : outcome unit :=
  match rc with
  | Returns _ => r
  | Raises e => Raises e
  end.

(** What the script has done when the file check is over. *)
Definition setup_events (w : world) (found : bool) : list event :=
  [Import (Returns tt); Print msg_setup; Print prompt; Log INFO msg_setting_up;
   PathExists (csv_path w) found].

(** The state in which the inner [try] is entered. *)
Definition st_setup (w : world) : state :=
  mkState (setup_events w true) PyNone PyNone.

(** The inner [try] body from line 81 on: seeding, then the loop. *)
Definition session_tail (w : world) : M unit :=
  print msg_understanding;;
  file_agent <- get_file_ingestion_agent;;
  file_ingestion_agent_output <- method_task w file_agent prompt;;
  data_agent <- get_data_analysis_agent;;
  method_add_context w data_agent prompt;;
  data_agent <- get_data_analysis_agent;;
  method_add_context w data_agent file_ingestion_agent_output;;
  interactive_loop w (stdin w).

(** The status the outer handlers of [main] turn a result into. *)
Definition outer_status (r : outcome unit) : Z :=
  match r with
  | Returns _ => 0
  | Raises e =>
      if is_KeyboardInterrupt e then 0
      else if is_Exception e then 1
      else exit_status (Raises e)
  end.

(** What the outer handlers of [main] print and log for a result. *)
Definition outer_events (r : outcome unit) : list event :=
  match r with
  | Returns _ => []
  | Raises e =>
      if is_KeyboardInterrupt e then [Print msg_interrupted]
      else if is_Exception e then [Log ERROR msg_unexpected; LogException e]
      else []
  end.

Definition set_agent_cleanup (f : agent -> list event -> outcome unit) (w : world) : world :=
  mkWorld (project_root w) (import_agents w) (os_path_exists w) (agent_new w)
          (agent_task w) (agent_add_context w) f (stdin w).

Definition set_agent_task (f : agent -> string -> list event -> outcome string) (w : world) : world :=
  mkWorld (project_root w) (import_agents w) (os_path_exists w) (agent_new w)
          f (agent_add_context w) (agent_cleanup w) (stdin w).

Definition set_agent_add_context (f : agent -> string -> list event -> outcome unit) (w : world) : world :=
  mkWorld (project_root w) (import_agents w) (os_path_exists w) (agent_new w)
          (agent_task w) f (agent_cleanup w) (stdin w).

Definition set_agent_new (f : agent -> list event -> outcome unit) (w : world) : world :=
  mkWorld (project_root w) (import_agents w) (os_path_exists w) f
          (agent_task w) (agent_add_context w) (agent_cleanup w) (stdin w).

Definition set_os_path_exists (f : string -> bool) (w : world) : world :=
  mkWorld (project_root w) (import_agents w) f (agent_new w)
          (agent_task w) (agent_add_context w) (agent_cleanup w) (stdin w).

Definition set_import_agents (r : outcome unit) (w : world) : world :=
  mkWorld (project_root w) r (os_path_exists w) (agent_new w)
          (agent_task w) (agent_add_context w) (agent_cleanup w) (stdin w).

(** The same world with every [cleanup()] returning. *)
Definition silence_cleanup (w : world) : world :=
  set_agent_cleanup (fun _ _ => Returns tt) w.

(** A world in which everything works: the modules import, the data file
    is there, every agent call returns; the console does [ins]. *)
Definition friendly (ins : list (outcome string)) : world :=
  mkWorld "/srv/app" (Returns tt) (fun _ => true)
          (fun _ _ => Returns tt)
          (fun a _ _ => Returns (match a with
                                 | FileAccessAgent => "10 columns, 840 rows"
                                 | PythonExecAgent => "42"
                                 end))
          (fun _ _ _ => Returns tt)
          (fun _ _ => Returns tt)
          ins.

(** The file description fails, then the user interrupts the cleanup of
    the file agent. *)
Definition w_cleanup_interrupted : world :=
  set_agent_cleanup
    (fun a _ => match a with
                | FileAccessAgent => Raises KeyboardInterrupt
                | PythonExecAgent => Returns tt
                end)
    (set_agent_task
       (fun _ _ _ => Raises (OtherException "RuntimeError"))
       (friendly [Returns "exit"])).

(** The second constructor fails and the cleanup of the first agent fails
    too, both with ordinary errors. *)
Definition w_second_constructor_fails : world :=
  set_agent_cleanup
    (fun _ _ => Raises (OtherException "RuntimeError"))
    (set_agent_new
       (fun a _ => match a with
                   | FileAccessAgent => Returns tt
                   | PythonExecAgent => Raises (OtherException "DockerException")
                   end)
       (friendly [])).

(** Only the existence check of the friendly world changes: the data file
    is missing. *)
Definition w_file_missing : world :=
  set_os_path_exists (fun _ => false) (friendly [Returns "How many rows?"]).

(** A question is asked, the agent fails on it, a second question follows,
    then the input ends. *)
Definition w_first_question_fails : world :=
  set_agent_task
    (fun a arg _ =>
       match a with
       | FileAccessAgent => Returns "10 columns, 840 rows"
       | PythonExecAgent =>
           if arg =? "mean speed?" then Raises (OtherException "RuntimeError")
           else Returns "42"
       end)
    (friendly [Returns " mean speed? "; Returns "max speed?"]).

(** The state in which the loop of the friendly worlds is entered does not
    matter for the turn lemmas; this one has both agents and no history. *)
Definition st_agents : state :=
  mkState [] (PyAgent FileAccessAgent) (PyAgent PythonExecAgent).

Definition hist_file_agent (w : world) : list event :=
  setup_events w true ++ [Construct FileAccessAgent [] (Returns tt)].

(** The history when [file_ingestion_agent.task(prompt)] is called. *)
Definition hist_agents (w : world) : list event :=
  hist_file_agent w ++
  [Construct PythonExecAgent python_exec_kwargs (Returns tt); Print msg_understanding].

(** The history when the first [add_context] is called. *)
Definition hist_described (w : world) (out : string) : list event :=
  hist_agents w ++ [Task FileAccessAgent prompt (Returns out)].

(** The history when the second [add_context] is called. *)
Definition hist_context (w : world) (out : string) : list event :=
  hist_described w out ++ [AddContext PythonExecAgent prompt (Returns tt)].

(** The history when the loop is entered. *)
Definition hist_seeded (w : world) (out : string) : list event :=
  hist_context w out ++ [AddContext PythonExecAgent out (Returns tt)].

(** The modules import, the data file is there and both constructors
    return. *)
Definition agents_constructed (w : world) : Prop :=
  import_agents w = Returns tt /\
  os_path_exists w (csv_path w) = true /\
  agent_new w FileAccessAgent (setup_events w true) = Returns tt /\
  agent_new w PythonExecAgent (hist_file_agent w) = Returns tt.

(** Moreover the file description returns [out] and both [add_context]
    calls return: the loop is entered. *)
Definition seeded (w : world) (out : string) : Prop :=
  agents_constructed w /\
  agent_task w FileAccessAgent prompt (hist_agents w) = Returns out /\
  agent_add_context w PythonExecAgent prompt (hist_described w out) = Returns tt /\
  agent_add_context w PythonExecAgent out (hist_context w out) = Returns tt.

(** One of the three seeding calls raises [e], the ones before it having
    returned. *)
Definition seeding_fails (w : world) (e : exn) (h : list event) : Prop :=
  (agent_task w FileAccessAgent prompt (hist_agents w) = Raises e /\
   h = hist_agents w ++ [Task FileAccessAgent prompt (Raises e)]) \/
  (exists out,
     agent_task w FileAccessAgent prompt (hist_agents w) = Returns out /\
     agent_add_context w PythonExecAgent prompt (hist_described w out) = Raises e /\
     h = hist_described w out ++ [AddContext PythonExecAgent prompt (Raises e)]) \/
  (exists out,
     agent_task w FileAccessAgent prompt (hist_agents w) = Returns out /\
     agent_add_context w PythonExecAgent prompt (hist_described w out) = Returns tt /\
     agent_add_context w PythonExecAgent out (hist_context w out) = Raises e /\
     h = hist_context w out ++ [AddContext PythonExecAgent out (Raises e)]).

Definition st_both (h : list event) : state :=
  mkState h (PyAgent FileAccessAgent) (PyAgent PythonExecAgent).

(** The file description works, the first [add_context] fails. *)
Definition w_add_context_fails : world :=
  set_agent_add_context
    (fun _ _ _ => Raises (OtherException "APIError"))
    (friendly [Returns "How many rows?"]).

(** The user interrupts the answer to the first question. *)
Definition w_task_interrupted : world :=
  set_agent_task
    (fun a _ _ =>
       match a with
       | FileAccessAgent => Returns "10 columns, 840 rows"
       | PythonExecAgent => Raises KeyboardInterrupt
       end)
    (friendly [Returns "How many rows?"; Returns "exit"]).

(** Everything works and the user types [exit] at once, then interrupts
    the cleanup of the file agent. *)
Definition w_exit_cleanup_interrupted : world :=
  set_agent_cleanup
    (fun a _ => match a with
                | FileAccessAgent => Raises KeyboardInterrupt
                | PythonExecAgent => Returns tt
                end)
    (friendly [Returns "exit"]).

(** The first [add_context] fails, then the user interrupts the cleanup of
    the file agent. *)
Definition w_seeding_cleanup_interrupted : world :=
  set_agent_cleanup
    (fun a _ => match a with
                | FileAccessAgent => Raises KeyboardInterrupt
                | PythonExecAgent => Returns tt
                end)
    (set_agent_add_context
       (fun _ _ _ => Raises (OtherException "APIError"))
       (friendly [Returns "How many rows?"])).

(** The user interrupts the answer to the first question and then the
    cleanup of the file agent as well. *)
Definition w_task_cleanup_interrupted : world :=
  set_agent_cleanup
    (fun a _ => match a with
                | FileAccessAgent => Raises KeyboardInterrupt
                | PythonExecAgent => Returns tt
                end)
    (set_agent_task
       (fun a _ _ =>
          match a with
          | FileAccessAgent => Returns "10 columns, 840 rows"
          | PythonExecAgent => Raises KeyboardInterrupt
          end)
       (friendly [Returns "How many rows?"; Returns "exit"])).

(** The user types [exit]; the cleanup of the file agent fails with an
    ordinary error and the user interrupts the cleanup of the
    code-execution agent. *)
Definition w_data_cleanup_interrupted : world :=
  set_agent_cleanup
    (fun a _ => match a with
                | FileAccessAgent => Raises (OtherException "RuntimeError")
                | PythonExecAgent => Raises KeyboardInterrupt
                end)
    (friendly [Returns "exit"]).

(** What reaches the [except] clauses of [main]: the result of the outer
    [try] body once the modules are imported. *)
Definition outermost (w : world) : outcome unit :=
  fst (main_body w (extend initial [Import (Returns tt)])).

(** The agent modules are missing. *)
Definition w_import_fails : world :=
  set_import_agents (Raises ImportError) (friendly []).

(** The user interrupts the file description. *)
Definition w_describe_interrupted : world :=
  set_agent_task (fun _ _ _ => Raises KeyboardInterrupt) (friendly []).

(** A string made of whitespace characters only. *)
Inductive blank : string -> Prop :=
| blank_empty : blank EmptyString
| blank_space (w s : string) : In w whitespace -> blank s -> blank (w ++ s).

(** [t] neither starts nor ends with a whitespace character. *)
Definition trimmed (t : string) : Prop :=
  forall w u, In w whitespace -> t <> (w ++ u)%string /\ t <> (u ++ w)%string.

(** [s] starts with a whitespace character. *)
Definition has_space_prefix (s : string) : bool :=
  match s with
  | EmptyString => false
  | String a r1 =>
      is_space (String a EmptyString) ||
      match r1 with
      | EmptyString => false
      | String b r2 =>
          is_space (String a (String b EmptyString)) ||
          match r2 with
          | EmptyString => false
          | String c _ => is_space (String a (String b (String c EmptyString)))
          end
      end
  end.

(** The word [exit] in one of its sixteen casings. *)
Definition is_exit_word (s : string) : bool :=
  match s with
  | String a (String b (String c (String d EmptyString))) =>
      (Ascii.eqb a "e" || Ascii.eqb a "E") && (Ascii.eqb b "x" || Ascii.eqb b "X") &&
      (Ascii.eqb c "i" || Ascii.eqb c "I") && (Ascii.eqb d "t" || Ascii.eqb d "T")
  | _ => false
  end.

(** U+00A0, the no-break space, and U+3000, the ideographic space: two of
    the whitespace characters outside ASCII. *)
Definition nbsp : string := bytes [194; 160].
Definition ideographic_space : string := bytes [227; 128; 128].

(** Scans a history: once a console read is one the loop stops on, no
    [task()] call on the code-execution agent comes after it. *)
Fixpoint no_task_after_exit (tr : list event) : bool :=
  match tr with
  | [] => true
  | Input _ r :: tr' =>
      if exit_read r
      then Nat.eqb (count (is_task PythonExecAgent) tr') 0
      else no_task_after_exit tr'
  | _ :: tr' => no_task_after_exit tr'
  end.

(** ** Further observations and worlds *)

(** A console read that returned a line which is a question. *)
Definition is_question_read (e : event) : bool :=
  match e with
  | Input _ (Returns line) => negb (exit_read (Returns line))
  | _ => false
  end.

(** On a [task()] call of the code-execution agent: the argument is its
    own stripped form and is not [exit] in any casing. *)
Definition stripped_question (e : event) : bool :=
  match e with
  | Task PythonExecAgent arg _ => (strip arg =? arg) && negb (lower arg =? "exit")
  | _ => true
  end.

(** Events of the interactive loop: prints, console reads, [task()] calls
    and log entries. *)
Definition loop_event (e : event) : bool :=
  match e with
  | Print _ | Input _ _ | Task _ _ _ | Log _ _ | LogException _ => true
  | _ => false
  end.

(** The user interrupts the second [add_context] call. *)
Definition w_seeding_interrupted : world :=
  set_agent_add_context
    (fun _ arg _ => if arg =? prompt then Returns tt else Raises KeyboardInterrupt)
    (friendly [Returns "How many rows?"]).

(** The separator [os.path.join] puts after [path]: none after the empty
    path or one that ends with a separator. *)
Definition join_sep (path : string) : string :=
  if (path =? EmptyString) || ends_with_sep path then EmptyString else "/".

(** The constructor of the file agent fails. *)
Definition w_file_constructor_fails : world :=
  set_agent_new
    (fun a _ => match a with
                | FileAccessAgent => Raises (OtherException "OpenAIError")
                | PythonExecAgent => Returns tt
                end)
    (friendly [Returns "How many rows?"]).

(** The constructor of the code-execution agent fails. *)
Definition w_exec_constructor_fails : world :=
  set_agent_new
    (fun a _ => match a with
                | FileAccessAgent => Returns tt
                | PythonExecAgent => Raises (OtherException "DockerException")
                end)
    (friendly [Returns "How many rows?"]).

(** Importing the agent modules raises something else than [ImportError]. *)
Definition w_import_syntax_error : world :=
  set_import_agents (Raises (OtherException "SyntaxError")) (friendly []).

(** The console fails on the second read. *)
Definition w_read_fails : world :=
  friendly [Returns "How many rows?"; Raises (OtherException "UnicodeDecodeError");
            Returns "exit"].

(** ** What [strip] removes *)

Lemma append_assoc (a b c : string) : ((a ++ b) ++ c = a ++ b ++ c)%string.
Proof. induction a as [|x a IH]; cbn; [reflexivity|now rewrite IH]. Qed.

Lemma append_empty_r (s : string) : (s ++ EmptyString)%string = s.
Proof. induction s as [|x s IH]; cbn; [reflexivity|now rewrite IH]. Qed.

Lemma is_space_In (u : string) : is_space u = true <-> In u whitespace.
Proof.
  unfold is_space. rewrite existsb_exists. split.
  - intros (w & Hw & E). apply String.eqb_eq in E. now subst.
  - intros H. exists u. split; [exact H|apply String.eqb_refl].
Qed.

(** Splits [In w whitespace] into its twenty-nine cases. *)
Ltac each_space H :=
  cbv [whitespace map bytes fold_right] in H; cbn [In] in H;
  repeat (destruct H as [H|H]; [subst|]); [..|destruct H].

Lemma whitespace_not_empty (w : string) : In w whitespace -> w <> EmptyString.
Proof. intros H. each_space H; discriminate. Qed.

Lemma has_space_prefix_app (w u : string) :
  In w whitespace -> has_space_prefix (w ++ u) = true.
Proof. intros H. each_space H; reflexivity. Qed.

Lemma lstrip_space (w s : string) :
  In w whitespace -> lstrip (w ++ s) = lstrip s.
Proof. intros H. each_space H; reflexivity. Qed.

Lemma rstrip_space (w : string) : In w whitespace -> rstrip w = EmptyString.
Proof. intros H. each_space H; reflexivity. Qed.

Lemma lstrip_blank (pre s : string) : blank pre -> lstrip (pre ++ s) = lstrip s.
Proof.
  induction 1 as [|w pre Hw Hb IH]; [reflexivity|].
  now rewrite append_assoc, lstrip_space.
Qed.

Lemma lstrip_fixed (s : string) : has_space_prefix s = false -> lstrip s = s.
Proof.
  destruct s as [|a [|b [|c r]]]; cbn [has_space_prefix lstrip];
    repeat match goal with
           | |- context [is_space ?u] => destruct (is_space u) eqn:?
           end;
    cbn [orb]; intros H; try discriminate H; reflexivity.
Qed.

Lemma lstrip_spec (n : nat) :
  forall s, String.length s <= n ->
    has_space_prefix (lstrip s) = false /\
    exists pre, blank pre /\ s = (pre ++ lstrip s)%string.
Proof.
  induction n as [|n IH]; intros s Hn.
  - destruct s; [|cbn in Hn; lia]. split; [reflexivity|].
    exists EmptyString. split; [constructor|reflexivity].
  - assert (Hdrop : forall w r,
              is_space w = true -> s = (w ++ r)%string -> String.length r <= n ->
              lstrip s = lstrip r ->
              has_space_prefix (lstrip s) = false /\
              exists pre, blank pre /\ s = (pre ++ lstrip s)%string).
    { intros w r Hw -> Hr El. rewrite El.
      destruct (IH r Hr) as (Hp & pre & Hb & E). split; [exact Hp|].
      exists (w ++ pre)%string. split.
      - constructor; [now apply is_space_In|exact Hb].
      - now rewrite append_assoc, <- E. }
    assert (Hkeep : has_space_prefix s = false -> lstrip s = s ->
              has_space_prefix (lstrip s) = false /\
              exists pre, blank pre /\ s = (pre ++ lstrip s)%string).
    { intros Hp ->. split; [exact Hp|].
      exists EmptyString. split; [constructor|reflexivity]. }
    destruct s as [|a r1]; [apply Hkeep; reflexivity|].
    cbn [String.length] in Hn.
    destruct (is_space (String a EmptyString)) eqn:E1.
    { apply (Hdrop (String a EmptyString) r1 E1 eq_refl); [lia|].
      cbn [lstrip]. now rewrite E1. }
    destruct r1 as [|b r2].
    { apply Hkeep; cbn [has_space_prefix lstrip]; now rewrite E1. }
    cbn [String.length] in Hn.
    destruct (is_space (String a (String b EmptyString))) eqn:E2.
    { apply (Hdrop (String a (String b EmptyString)) r2 E2 eq_refl); [lia|].
      cbn [lstrip]. now rewrite E1, E2. }
    destruct r2 as [|c r3].
    { apply Hkeep; cbn [has_space_prefix lstrip]; now rewrite E1, E2. }
    cbn [String.length] in Hn.
    destruct (is_space (String a (String b (String c EmptyString)))) eqn:E3.
    { apply (Hdrop (String a (String b (String c EmptyString))) r3 E3 eq_refl); [lia|].
      cbn [lstrip]. now rewrite E1, E2, E3. }
    apply Hkeep; cbn [has_space_prefix lstrip]; now rewrite E1, E2, E3.
Qed.

Lemma lstrip_decompose (s : string) :
  exists pre, blank pre /\ s = (pre ++ lstrip s)%string.
Proof. exact (proj2 (lstrip_spec (String.length s) s (le_n _))). Qed.

Lemma lstrip_no_space_prefix (s w u : string) :
  In w whitespace -> lstrip s <> (w ++ u)%string.
Proof.
  intros Hw E.
  pose proof (proj1 (lstrip_spec (String.length s) s (le_n _))) as Hp.
  rewrite E, (has_space_prefix_app w u Hw) in Hp. discriminate.
Qed.

Lemma rstrip_app_blank (s t : string) :
  rstrip t = EmptyString -> rstrip (s ++ t) = rstrip s.
Proof.
  intros Ht. induction s as [|a s IH]; [exact Ht|].
  cbn [append rstrip]. now rewrite IH.
Qed.

Lemma rstrip_blank (post : string) : blank post -> rstrip post = EmptyString.
Proof.
  induction 1 as [|w post Hw Hb IH]; [reflexivity|].
  rewrite (rstrip_app_blank w post IH). now apply rstrip_space.
Qed.

Lemma rstrip_decompose (s : string) :
  exists post, blank post /\ s = (rstrip s ++ post)%string.
Proof.
  induction s as [|a s (post & Hb & E)].
  - exists EmptyString. split; [constructor|reflexivity].
  - cbn [rstrip]. destruct (is_space (String a (rstrip s))) eqn:Hu.
    + exists (String a (rstrip s) ++ post)%string. split.
      * constructor; [now apply is_space_In|exact Hb].
      * cbn [append]. now rewrite <- E.
    + exists post. split; [exact Hb|]. cbn [append]. now rewrite <- E.
Qed.

Lemma rstrip_no_space_suffix (s w t : string) :
  In w whitespace -> rstrip s <> (t ++ w)%string.
Proof.
  intros Hw. revert t. induction s as [|a s IH]; intros t E.
  - destruct t; cbn in E; [|discriminate E].
    now apply (whitespace_not_empty w Hw).
  - cbn [rstrip] in E. destruct (is_space (String a (rstrip s))) eqn:Hu.
    + destruct t; cbn in E; [|discriminate E].
      now apply (whitespace_not_empty w Hw).
    + destruct t as [|a' t]; cbn [append] in E.
      * rewrite <- E in Hw. apply is_space_In in Hw. congruence.
      * injection E as _ E. exact (IH t E).
Qed.

Lemma strip_decompose (s : string) :
  exists pre post, blank pre /\ blank post /\ s = (pre ++ strip s ++ post)%string.
Proof.
  destruct (lstrip_decompose s) as (pre & Hpre & E1).
  destruct (rstrip_decompose (lstrip s)) as (post & Hpost & E2).
  exists pre, post. unfold strip. now rewrite <- E2.
Qed.

Lemma strip_trimmed (s : string) : trimmed (strip s).
Proof.
  intros w u Hw. unfold strip. split.
  - intros E. destruct (rstrip_decompose (lstrip s)) as (post & _ & E2).
    rewrite E, append_assoc in E2. exact (lstrip_no_space_prefix s w _ Hw E2).
  - now apply rstrip_no_space_suffix.
Qed.

Lemma has_space_prefix_split (s : string) :
  has_space_prefix s = true -> exists w u, In w whitespace /\ s = (w ++ u)%string.
Proof.
  destruct s as [|a r1]; [discriminate|]. cbn [has_space_prefix]. intros H.
  apply orb_true_iff in H as [H|H].
  { exists (String a EmptyString), r1. split; [now apply is_space_In|reflexivity]. }
  destruct r1 as [|b r2]; [discriminate|].
  apply orb_true_iff in H as [H|H].
  { exists (String a (String b EmptyString)), r2.
    split; [now apply is_space_In|reflexivity]. }
  destruct r2 as [|c r3]; [discriminate|].
  exists (String a (String b (String c EmptyString))), r3.
  split; [now apply is_space_In|reflexivity].
Qed.

Lemma trimmed_strip (t : string) : trimmed t -> strip t = t.
Proof.
  intros Ht. unfold strip.
  assert (Hl : lstrip t = t).
  { apply lstrip_fixed. destruct (has_space_prefix t) eqn:Hp; [|reflexivity].
    destruct (has_space_prefix_split t Hp) as (w & u & Hw & E).
    now destruct (proj1 (Ht w u Hw)). }
  rewrite Hl. destruct (rstrip_decompose t) as (post & Hb & E).
  destruct Hb as [|w post Hw Hb].
  - now rewrite append_empty_r in E.
  - exfalso.
    (* the last whitespace character of the blank suffix ends [t] *)
    assert (Hlast : forall p, blank p -> p <> EmptyString ->
                    exists q w', In w' whitespace /\ p = (q ++ w')%string).
    { clear. induction 1 as [|w p Hw Hb IH]; intros Hne; [congruence|].
      destruct Hb as [|w2 p2 Hw2 Hb2].
      - exists EmptyString, w. split; [exact Hw|now rewrite append_empty_r].
      - destruct IH as (q & w' & Hw' & E).
        { intros E. destruct w2; [now apply (whitespace_not_empty _ Hw2)|discriminate E]. }
        exists (w ++ q)%string, w'. split; [exact Hw'|].
        now rewrite E, append_assoc. }
    destruct (Hlast (w ++ post)%string) as (q & w' & Hw' & Eq).
    { now constructor. }
    { intros E0. destruct w; [now apply (whitespace_not_empty _ Hw)|discriminate E0]. }
    rewrite Eq, <- append_assoc in E.
    exact (proj2 (Ht w' (rstrip t ++ q)%string Hw') E).
Qed.

Lemma strip_idempotent (s : string) : strip (strip s) = strip s.
Proof. apply trimmed_strip, strip_trimmed. Qed.

Lemma lower_char_letter (c : ascii) :
  Ascii.eqb (lower_char c) "e" = Ascii.eqb c "e" || Ascii.eqb c "E" /\
  Ascii.eqb (lower_char c) "x" = Ascii.eqb c "x" || Ascii.eqb c "X" /\
  Ascii.eqb (lower_char c) "i" = Ascii.eqb c "i" || Ascii.eqb c "I" /\
  Ascii.eqb (lower_char c) "t" = Ascii.eqb c "t" || Ascii.eqb c "T".
Proof. destruct c as [[] [] [] [] [] [] [] []]; repeat split; reflexivity. Qed.

Lemma exit_word_lower (word : string) :
  (lower word =? "exit") = is_exit_word word.
Proof.
  destruct word as [|a [|b [|c [|d [|e word]]]]]; try reflexivity;
    cbn [lower is_exit_word]; unfold String.eqb; fold String.eqb;
    rewrite ?(proj1 (lower_char_letter a)),
            ?(proj1 (proj2 (lower_char_letter b))),
            ?(proj1 (proj2 (proj2 (lower_char_letter c)))),
            ?(proj2 (proj2 (proj2 (lower_char_letter d))));
    repeat match goal with
           | |- context [Ascii.eqb ?p ?q] => destruct (Ascii.eqb p q)
           end; reflexivity.
Qed.

Lemma exit_word_strip (pre word post : string) :
  blank pre -> blank post -> is_exit_word word = true ->
  strip (pre ++ word ++ post) = word.
Proof.
  intros Hpre Hpost Hw. unfold strip. rewrite (lstrip_blank _ _ Hpre).
  destruct word as [|a [|b [|c [|d [|e word]]]]]; try discriminate Hw.
  cbn [is_exit_word] in Hw.
  repeat (apply andb_true_iff in Hw; destruct Hw as [Hw ?]).
  repeat match goal with
         | H : Ascii.eqb _ _ || Ascii.eqb _ _ = true |- _ =>
             apply orb_true_iff in H; destruct H as [H|H];
             apply Ascii.eqb_eq in H; subst
         end;
    (rewrite lstrip_fixed by reflexivity;
     rewrite (rstrip_app_blank _ post (rstrip_blank post Hpost)); reflexivity).
Qed.

(** A way to recognise a blank string by computation. *)
Lemma blank_lstrip (s : string) : lstrip s = EmptyString -> blank s.
Proof.
  intros E. destruct (lstrip_decompose s) as (pre & Hb & Es).
  rewrite E, append_empty_r in Es. now subst.
Qed.

(** ** Reasoning about runs *)

Lemma extend_extend (st : state) (a b : list event) :
  extend (extend st a) b = extend st (a ++ b).
Proof. unfold extend; cbn [history file_ingestion_agent data_analysis_agent]. now rewrite app_assoc. Qed.

Lemma extend_nil (st : state) : extend st [] = st.
Proof. destruct st; unfold extend; cbn. now rewrite app_nil_r. Qed.

Lemma count_app (p : event -> bool) (a b : list event) :
  count p (a ++ b) = count p a + count p b.
Proof. unfold count. now rewrite filter_app, List.length_app. Qed.

Lemma count_zero_forallb (p : event -> bool) (tr : list event) :
  forallb (fun e => negb (p e)) tr = true -> count p tr = 0.
Proof.
  unfold count. induction tr as [|e tr IH]; cbn; [reflexivity|].
  intros H. apply andb_true_iff in H as [He Htr].
  destruct (p e); [discriminate|]. now apply IH.
Qed.

(** Unfolds the script and the monad, leaving texts and oracles folded. *)
Ltac unfold_script_once :=
  cbv beta iota zeta delta
      [script main main_body agents_session cleanup_block loop_body
       py_import path_exists construct method_task method_add_context method_cleanup
       py_input import_handler read_handler task_handler cleanup_handler outer_handler
       bind ret raise emit lift try_except try_finally get_history
       print logging_info logging_error logging_exception sys_exit
       set_file_ingestion_agent set_data_analysis_agent
       get_file_ingestion_agent get_data_analysis_agent
       extend initial truthy negb orb andb fst snd
       is_Exception is_ImportError is_EOFError is_KeyboardInterrupt exit_status];
  cbn [app history file_ingestion_agent data_analysis_agent].

Ltac unfold_script := unfold_script_once; repeat (progress unfold_script_once).


(** *** Computations that only append events

    The rules of [quiet] follow the monad's combinators. *)

Section Quiet.

Variable P : event -> bool.

Lemma quiet_ret {A} (a : A) : quiet P (ret a).
Proof. intros st. exists []. now rewrite extend_nil. Qed.

Lemma quiet_raise {A} (e : exn) : quiet P (@raise A e).
Proof. intros st. exists []. now rewrite extend_nil. Qed.

Lemma quiet_lift {A} (r : outcome A) : quiet P (lift r).
Proof. destruct r; [apply quiet_ret | apply quiet_raise]. Qed.

Lemma quiet_emit (e : event) : P e = true -> quiet P (emit e).
Proof. intros H st. exists [e]. cbn. now rewrite H. Qed.

Lemma quiet_get_history : quiet P get_history.
Proof. intros st. exists []. now rewrite extend_nil. Qed.

Lemma quiet_get_file_ingestion_agent : quiet P get_file_ingestion_agent.
Proof. intros st. exists []. now rewrite extend_nil. Qed.

Lemma quiet_get_data_analysis_agent : quiet P get_data_analysis_agent.
Proof. intros st. exists []. now rewrite extend_nil. Qed.

Lemma quiet_bind {A B} (m : M A) (k : A -> M B) :
  quiet P m -> (forall a, quiet P (k a)) -> quiet P (bind m k).
Proof.
  intros Hm Hk st. unfold bind.
  destruct (Hm st) as (e1 & E1 & F1).
  destruct (m st) as [[a|e] st1]; cbn [snd] in E1; subst st1.
  - destruct (Hk a (extend st e1)) as (e2 & E2 & F2).
    exists (e1 ++ e2). rewrite E2, extend_extend, forallb_app, F1, F2. now split.
  - exists e1. now split.
Qed.

Lemma quiet_try_except {A} (body : M A) (handler : exn -> option (M A)) :
  quiet P body ->
  (forall e h, handler e = Some h -> quiet P h) ->
  quiet P (try_except body handler).
Proof.
  intros Hb Hh st. unfold try_except.
  destruct (Hb st) as (e1 & E1 & F1).
  destruct (body st) as [[a|e] st1]; cbn [snd] in E1; subst st1.
  - exists e1. now split.
  - destruct (handler e) as [h|] eqn:Eh.
    + destruct (Hh e h Eh (extend st e1)) as (e2 & E2 & F2).
      exists (e1 ++ e2). rewrite E2, extend_extend, forallb_app, F1, F2. now split.
    + exists e1. now split.
Qed.

Lemma quiet_try_finally {A} (body : M A) (fin : M unit) :
  quiet P body -> quiet P fin -> quiet P (try_finally body fin).
Proof.
  intros Hb Hf st. unfold try_finally.
  destruct (Hb st) as (e1 & E1 & F1).
  destruct (body st) as [r st1]; cbn [snd] in E1; subst st1.
  destruct (Hf (extend st e1)) as (e2 & E2 & F2).
  exists (e1 ++ e2).
  destruct (fin (extend st e1)) as [[u|e] st2]; cbn [snd] in *; subst st2;
    rewrite extend_extend, forallb_app, F1, F2; now split.
Qed.

End Quiet.

(** Applies the rules of [quiet] along the structure of a computation; the
    side conditions on single events are closed by evaluation. *)
Ltac quiet_step :=
  first
    [ apply quiet_bind; [|intros ?]
    | apply quiet_ret
    | apply quiet_raise
    | apply quiet_lift
    | apply quiet_get_history
    | apply quiet_get_file_ingestion_agent
    | apply quiet_get_data_analysis_agent
    | apply quiet_emit; reflexivity ].

Ltac quiet_auto := repeat quiet_step.

(** ** The interactive loop, turn by turn *)

Ltac norm_history :=
  unfold extend; cbn [history file_ingestion_agent data_analysis_agent];
  rewrite <- ?app_assoc; cbn [app].

Lemma loop_body_break (w : world) (r : outcome string) (st : state) :
  exit_read r = true ->
  loop_body w r st =
  (Returns Break,
   extend st [Print msg_type_question; Input input_prompt r; Print (farewell r)]).
Proof.
  destruct r as [line|e]; cbn [exit_read farewell]; intros H.
  - unfold_script. rewrite H. norm_history. reflexivity.
  - destruct e; try discriminate H; unfold_script; norm_history; reflexivity.
Qed.

Lemma loop_body_read_raises (w : world) (e : exn) (st : state) :
  exit_read (Raises e) = false ->
  loop_body w (Raises e) st =
  (Raises e, extend st [Print msg_type_question; Input input_prompt (Raises e)]).
Proof.
  cbn [exit_read]; intros H.
  destruct e; try discriminate H; unfold_script; norm_history; reflexivity.
Qed.

Lemma loop_body_question (w : world) (line : string) (st : state) (a : agent) :
  exit_read (Returns line) = false ->
  data_analysis_agent st = PyAgent a ->
  let o := agent_task w a (strip line) (history st ++ question_events line) in
  loop_body w (Returns line) st =
  (match o with
   | Returns _ => Returns Continue
   | Raises e => if is_Exception e then Returns Continue else Raises e
   end,
   extend st (question_events line ++ [Task a (strip line) o] ++ answer_events o)).
Proof.
  intros H Ha o. cbn [exit_read] in H. subst o. unfold_script. rewrite H, Ha.
  unfold question_events. norm_history.
  destruct (agent_task w a (strip line) _) as [out|e]; [|destruct e];
    cbn [answer_events is_Exception]; norm_history; reflexivity.
Qed.

Lemma interactive_loop_break (w : world) (r : outcome string) rest (st : state) :
  exit_read r = true ->
  interactive_loop w (r :: rest) st =
  (Returns tt,
   extend st [Print msg_type_question; Input input_prompt r; Print (farewell r)]).
Proof.
  intros H. cbn [interactive_loop]. unfold bind at 1.
  now rewrite loop_body_break.
Qed.

Lemma interactive_loop_eof (w : world) (st : state) :
  interactive_loop w [] st =
  (Returns tt,
   extend st [Print msg_type_question; Input input_prompt (Raises EOFError);
              Print (nl ++ msg_exiting)]).
Proof.
  cbn [interactive_loop]. unfold bind at 1.
  now rewrite loop_body_break.
Qed.

Lemma interactive_loop_read_raises (w : world) (e : exn) rest (st : state) :
  exit_read (Raises e) = false ->
  interactive_loop w (Raises e :: rest) st =
  (Raises e, extend st [Print msg_type_question; Input input_prompt (Raises e)]).
Proof.
  intros H. cbn [interactive_loop]. unfold bind at 1.
  now rewrite loop_body_read_raises.
Qed.

Lemma interactive_loop_question (w : world) (line : string) rest (st : state) (a : agent) :
  exit_read (Returns line) = false ->
  data_analysis_agent st = PyAgent a ->
  let o := agent_task w a (strip line) (history st ++ question_events line) in
  let st' := extend st (question_events line ++ [Task a (strip line) o] ++ answer_events o) in
  interactive_loop w (Returns line :: rest) st =
  match o with
  | Returns _ => interactive_loop w rest st'
  | Raises e => if is_Exception e then interactive_loop w rest st' else (Raises e, st')
  end.
Proof.
  intros H Ha o st'. cbn [interactive_loop]. unfold bind at 1.
  rewrite (loop_body_question w line st a H Ha). fold o. fold st'.
  destruct o as [out|e]; [reflexivity|].
  destruct (is_Exception e); reflexivity.
Qed.

Lemma quiet_method_task (w : world) (v : pyvalue) (arg : string) :
  quiet session_event (method_task w v arg).
Proof. destruct v; cbn [method_task]; quiet_auto. Qed.

Lemma quiet_method_add_context (w : world) (v : pyvalue) (arg : string) :
  quiet session_event (method_add_context w v arg).
Proof. destruct v; cbn [method_add_context]; quiet_auto. Qed.

Lemma quiet_loop_body (w : world) (r : outcome string) :
  quiet session_event (loop_body w r).
Proof.
  unfold loop_body. apply quiet_bind; [quiet_auto|intros _].
  apply quiet_bind.
  - apply quiet_try_except; [unfold py_input; quiet_auto|].
    intros e h Hh. unfold read_handler in Hh.
    destruct (is_EOFError e || is_KeyboardInterrupt e); [|discriminate].
    injection Hh as <-. quiet_auto.
  - intros [user_input|]; [|quiet_auto].
    destruct (lower user_input =? "exit"); [quiet_auto|].
    do 2 (apply quiet_bind; [quiet_auto|intros _]).
    apply quiet_bind; [|quiet_auto].
    apply quiet_try_except.
    + apply quiet_bind; [quiet_auto|intros v].
      apply quiet_bind; [apply quiet_method_task|intros out]. quiet_auto.
    + intros e h Hh. unfold task_handler in Hh.
      destruct (is_Exception e); [|discriminate].
      injection Hh as <-. quiet_auto.
Qed.

Lemma quiet_interactive_loop (w : world) (ins : list (outcome string)) :
  quiet session_event (interactive_loop w ins).
Proof.
  induction ins as [|r rest IH]; cbn [interactive_loop].
  - apply quiet_bind; [apply quiet_loop_body|quiet_auto].
  - apply quiet_bind; [apply quiet_loop_body|].
    intros [|]; [exact IH|quiet_auto].
Qed.

(** ** The [finally] block *)

Ltac case_cleanup Hb :=
  match goal with
  | |- context [agent_cleanup ?w ?a ?h] =>
      let He := fresh "He" in
      generalize (Hb a h); destruct (agent_cleanup w a h) as [[]|[]];
      intros He; try discriminate He; clear He; unfold_script
  end.

Lemma cleanup_block_benign (w : world) (st : state) :
  cleanup_benign w ->
  exists evs,
    cleanup_block w st = (Returns tt, extend st evs) /\
    forallb teardown_event evs = true /\
    forall a, count (is_cleanup a) evs =
              holds (file_ingestion_agent st) a + holds (data_analysis_agent st) a.
Proof.
  intros Hb. destruct st as [h [|fa] [|da]]; unfold_script.
  - exists []. cbn [app]. rewrite app_nil_r. repeat split.
  - case_cleanup Hb;
      (eexists; split; [norm_history; reflexivity|]; split; [reflexivity|];
       intros a; destruct a, da; reflexivity).
  - case_cleanup Hb;
      (eexists; split; [norm_history; reflexivity|]; split; [reflexivity|];
       intros a; destruct a, fa; reflexivity).
  - case_cleanup Hb; case_cleanup Hb;
      (eexists; split; [norm_history; reflexivity|]; split; [reflexivity|];
       intros a; destruct a, fa, da; reflexivity).
Qed.

Lemma cleanup_event_teardown (evs : list event) :
  forallb cleanup_event evs = true -> forallb teardown_event evs = true.
Proof.
  rewrite !forallb_forall. intros H e He. specialize (H e He).
  destruct e as [| | [] | | | | | | |]; try discriminate H; reflexivity.
Qed.

(** The [finally] block, whatever the [cleanup()] calls do: it ends
    normally or with what a [cleanup()] raised outside [Exception]; the
    agent of the first variable is always cleaned up, the agent of the
    second when the first cleanup was not interrupted. *)
Lemma cleanup_block_spec (w : world) (st : state) :
  exists rc cevs,
    cleanup_block w st = (rc, extend st cevs) /\
    forallb cleanup_event cevs = true /\
    (forall a,
       holds (file_ingestion_agent st) a <= count (is_cleanup a) cevs /\
       count (is_cleanup a) cevs <=
         holds (file_ingestion_agent st) a + holds (data_analysis_agent st) a) /\
    ((forall a, file_ingestion_agent st = PyAgent a -> cleanup_not_interrupted w a) ->
     forall a, count (is_cleanup a) cevs =
               holds (file_ingestion_agent st) a + holds (data_analysis_agent st) a) /\
    (rc = Returns tt \/
     exists a h e,
       agent_cleanup w a h = Raises e /\ is_Exception e = false /\ rc = Raises e).
Proof.
  destruct st as [h [|fa] [|da]].
  { exists (Returns tt), []. unfold_script. rewrite app_nil_r.
    split; [reflexivity|]. split; [reflexivity|].
    split; [intros a; cbn; lia|]. split; [reflexivity|now left]. }
  all: unfold_script;
    repeat match goal with
           | |- context [agent_cleanup ?w0 ?a ?h'] =>
               let E := fresh "E" in
               destruct (agent_cleanup w0 a h') as [[]|[]] eqn:E; unfold_script
           end;
    (eexists; eexists; split; [norm_history; reflexivity|];
     split; [reflexivity|];
     split; [intros a; cbn [holds file_ingestion_agent data_analysis_agent];
             repeat match goal with x : agent |- _ => destruct x end; cbn; lia|];
     split;
     [ intros Hf a; cbn [holds file_ingestion_agent data_analysis_agent] in *;
       first
         [ solve [repeat match goal with x : agent |- _ => destruct x end; reflexivity]
         | exfalso;
           match goal with
           | E : agent_cleanup _ ?x ?hh = Raises _ |- _ =>
               generalize (Hf x eq_refl hh); rewrite E; cbn; discriminate
           end ]
     | first
         [ left; reflexivity
         | right;
           match goal with
           | E : agent_cleanup _ ?x ?hh = Raises ?e |- _ =>
               exists x, hh, e; split; [exact E|split; reflexivity]
           end ] ]).
Qed.

(** ** The run, phase by phase *)

Lemma script_import_raises (w : world) (e : exn) :
  import_agents w = Raises e ->
  run w =
  (exit_status (Raises e),
   Import (Raises e) ::
   (if is_ImportError e then [Log ERROR msg_import_failed; LogException e] else [])).
Proof.
  intros H. unfold run. unfold_script. rewrite H.
  destruct e; reflexivity.
Qed.

Lemma script_file_missing (w : world) :
  import_agents w = Returns tt ->
  os_path_exists w (csv_path w) = false ->
  run w =
  (1%Z,
   setup_events w false ++
   [Log ERROR ("Required file not found: " ++ csv_path w); Print msg_file_missing]).
Proof.
  intros Hi He. unfold run. unfold_script. rewrite Hi. unfold_script. rewrite He.
  reflexivity.
Qed.

Lemma script_file_found (w : world) :
  import_agents w = Returns tt ->
  os_path_exists w (csv_path w) = true ->
  script w initial =
  try_except (try_finally (agents_session w) (cleanup_block w)) outer_handler (st_setup w).
Proof.
  intros Hi He.
  cbv beta iota zeta delta
    [script main main_body py_import path_exists import_handler
     bind ret raise emit lift try_except
     print logging_info logging_error logging_exception sys_exit
     set_file_ingestion_agent set_data_analysis_agent extend initial negb].
  cbn [app history file_ingestion_agent data_analysis_agent].
  rewrite Hi. cbn [app history file_ingestion_agent data_analysis_agent]. rewrite He.
  reflexivity.
Qed.

Lemma outer_handler_result (m : M unit) (st : state) :
  let r := fst (m st) in
  let st' := snd (m st) in
  try_except m outer_handler st =
  (match r with
   | Returns _ => r
   | Raises e =>
       if is_KeyboardInterrupt e then Returns tt
       else if is_Exception e then Raises (SystemExit 1)
       else r
   end,
   extend st' (outer_events r)).
Proof.
  intros r st'. subst r st'. unfold try_except.
  destruct (m st) as [[u|e] s1]; cbn [fst snd outer_events].
  - now rewrite extend_nil.
  - destruct e; unfold_script; rewrite <- ?app_assoc; cbn [app];
      rewrite ?app_nil_r; try reflexivity; now destruct s1.
Qed.

Lemma run_file_found (w : world) :
  import_agents w = Returns tt ->
  os_path_exists w (csv_path w) = true ->
  let r := fst (try_finally (agents_session w) (cleanup_block w) (st_setup w)) in
  let st' := snd (try_finally (agents_session w) (cleanup_block w) (st_setup w)) in
  run w = (outer_status r, history st' ++ outer_events r).
Proof.
  intros Hi He r st'. unfold run.
  rewrite (script_file_found w Hi He), outer_handler_result. fold r st'.
  destruct r as [u|e]; [reflexivity|]. destruct e; reflexivity.
Qed.

Lemma agents_session_split (w : world) :
  agents_session w =
  (fa <- construct w FileAccessAgent [];;
   set_file_ingestion_agent fa;;
   da <- construct w PythonExecAgent python_exec_kwargs;;
   set_data_analysis_agent da;;
   session_tail w).
Proof. reflexivity. Qed.

Lemma quiet_session_tail (w : world) : quiet session_event (session_tail w).
Proof.
  unfold session_tail.
  apply quiet_bind; [quiet_auto|intros _].
  apply quiet_bind; [quiet_auto|intros fv].
  apply quiet_bind; [apply quiet_method_task|intros out].
  apply quiet_bind; [quiet_auto|intros dv].
  apply quiet_bind; [apply quiet_method_add_context|intros _].
  apply quiet_bind; [quiet_auto|intros dv'].
  apply quiet_bind; [apply quiet_method_add_context|intros _].
  apply quiet_interactive_loop.
Qed.

Lemma count_zero_of (P q : event -> bool) (evs : list event) :
  (forall e, P e = true -> q e = false) ->
  forallb P evs = true -> count q evs = 0.
Proof.
  intros HPq H. apply count_zero_forallb.
  rewrite forallb_forall in *. intros e He.
  now rewrite (HPq e (H e He)).
Qed.

Lemma session_event_not_cleanup (a : agent) (e : event) :
  session_event e = true -> is_cleanup a e = false.
Proof. destruct e; cbn; congruence. Qed.

Lemma session_event_not_constructed (a : agent) (e : event) :
  session_event e = true -> is_constructed a e = false.
Proof. destruct e; cbn; congruence. Qed.

Lemma teardown_event_not_constructed (a : agent) (e : event) :
  teardown_event e = true -> is_constructed a e = false.
Proof. destruct e; cbn; congruence. Qed.

(** When the inner [try] body is over, however it ended: no cleanup has
    been called yet, and the variables hold exactly the agents whose
    constructor returned. *)
Lemma agents_session_invariant (w : world) (h : list event) :
  let s1 := snd (agents_session w (mkState h PyNone PyNone)) in
  exists evs,
    history s1 = h ++ evs /\
    forall a,
      count (is_cleanup a) evs = 0 /\
      count (is_constructed a) evs =
        holds (file_ingestion_agent s1) a + holds (data_analysis_agent s1) a /\
      count (is_constructed a) evs <= 1.
Proof.
  rewrite agents_session_split. unfold_script.
  destruct (agent_new w FileAccessAgent h) as [[]|e]; unfold_script.
  2:{ eexists; split; [reflexivity|]. intros a; destruct a; cbn; auto. }
  destruct (agent_new w PythonExecAgent _) as [[]|e]; unfold_script.
  2:{ eexists; split; [norm_history; reflexivity|]. intros a; destruct a; cbn; auto. }
  rewrite <- app_assoc; cbn [app].
  match goal with |- context [session_tail w ?st] =>
    destruct (quiet_session_tail w st) as (evs & E & F);
    destruct (session_tail w st) as [r s1]; cbn [snd] in E; subst s1 end.
  cbn [extend history file_ingestion_agent data_analysis_agent].
  eexists; split; [rewrite <- app_assoc; cbn [app]; reflexivity|].
  intros a.
  change (?x :: ?y :: evs) with ([x; y] ++ evs). rewrite !count_app.
  rewrite (count_zero_of _ _ _ (session_event_not_cleanup a) F).
  rewrite (count_zero_of _ _ _ (session_event_not_constructed a) F).
  destruct a; cbn; auto.
Qed.

Lemma try_finally_benign (w : world) (m : M unit) (st : state) :
  cleanup_benign w ->
  fst (try_finally m (cleanup_block w) st) = fst (m st).
Proof.
  intros Hb. unfold try_finally. destruct (m st) as [r s1].
  destruct (cleanup_block_benign w s1 Hb) as (evs & E & _). now rewrite E.
Qed.

(** ** C1: cleanup of the constructed agents *)

Lemma cleanup_benign_silence (w : world) : cleanup_benign (silence_cleanup w).
Proof. intros a h. exact I. Qed.

Lemma outer_events_no_cleanup (a : agent) (r : outcome unit) :
  count (is_cleanup a) (outer_events r) = 0 /\
  count (is_constructed a) (outer_events r) = 0.
Proof. destruct r as [u|[]]; split; reflexivity. Qed.

Lemma setup_events_no_cleanup (w : world) (a : agent) (found : bool) :
  count (is_cleanup a) (setup_events w found) = 0 /\
  count (is_constructed a) (setup_events w found) = 0.
Proof. split; reflexivity. Qed.

(** When the inner [try] body is over, the first variable holds nothing or
    the file agent, the second nothing or the code-execution agent. *)
Lemma agents_session_vars (w : world) (h : list event) :
  let s1 := snd (agents_session w (mkState h PyNone PyNone)) in
  (forall a, holds (file_ingestion_agent s1) a <= holds (PyAgent FileAccessAgent) a) /\
  (forall a, holds (data_analysis_agent s1) a <= holds (PyAgent PythonExecAgent) a).
Proof.
  rewrite agents_session_split. unfold_script.
  destruct (agent_new w FileAccessAgent h) as [[]|e]; unfold_script.
  2:{ split; intros a; cbn; lia. }
  destruct (agent_new w PythonExecAgent _) as [[]|e]; unfold_script.
  2:{ split; intros a; cbn; lia. }
  match goal with |- context [session_tail w ?st] =>
    destruct (quiet_session_tail w st) as (evs & E & F);
    destruct (session_tail w st) as [r s1]; cbn [snd] in E; subst s1 end.
  cbn [extend history file_ingestion_agent data_analysis_agent].
  split; intros a; lia.
Qed.

Lemma trace_cleanup_counts (w : world) (a : agent) :
  count (is_cleanup a) (trace w) <= count (is_constructed a) (trace w) /\
  count (is_constructed a) (trace w) <= 1 /\
  count (is_cleanup FileAccessAgent) (trace w) =
    count (is_constructed FileAccessAgent) (trace w) /\
  (cleanup_not_interrupted w FileAccessAgent ->
   count (is_cleanup a) (trace w) = count (is_constructed a) (trace w)).
Proof.
  unfold trace.
  destruct (import_agents w) as [[]|e] eqn:Hi.
  - destruct (os_path_exists w (csv_path w)) eqn:He.
    + rewrite (run_file_found w Hi He). cbn [snd]. unfold try_finally, st_setup.
      pose proof (agents_session_invariant w (setup_events w true)) as (evs & Eh & Hc).
      pose proof (agents_session_vars w (setup_events w true)) as (Vf & Vd).
      destruct (agents_session w _) as [r1 s1]. cbn [snd] in Eh, Hc, Vf, Vd.
      destruct (cleanup_block_spec w s1) as (rc & cevs & Ec & Fc & Hle & Heq & _).
      rewrite Ec.
      assert (Hh : forall q,
                count q (history (snd (match rc with
                                       | Returns _ => (r1, extend s1 cevs)
                                       | Raises e => (Raises e, extend s1 cevs)
                                       end)) ++
                         outer_events (fst (match rc with
                                            | Returns _ => (r1, extend s1 cevs)
                                            | Raises e => (Raises e, extend s1 cevs)
                                            end))) =
                count q (setup_events w true) + count q evs + count q cevs +
                count q (outer_events (finally_result r1 rc))).
      { intros q. destruct rc as [u|e]; cbn [fst snd extend history finally_result];
          now rewrite Eh, !count_app. }
      rewrite !Hh. clear Hh.
      pose proof (cleanup_event_teardown cevs Fc) as Ft.
      destruct (Hc a) as (H1 & H2 & H3).
      destruct (Hc FileAccessAgent) as (F1 & F2 & F3).
      destruct (outer_events_no_cleanup a (finally_result r1 rc)) as [O1 O2].
      destruct (outer_events_no_cleanup FileAccessAgent (finally_result r1 rc)) as [P1 P2].
      destruct (setup_events_no_cleanup w a true) as [S1 S2].
      destruct (setup_events_no_cleanup w FileAccessAgent true) as [T1 T2].
      rewrite !(count_zero_of _ _ _ (teardown_event_not_constructed _) Ft).
      rewrite O1, O2, P1, P2, S1, S2, T1, T2, H1, H2, F1, F2.
      destruct (Hle a) as [La Ua]. destruct (Hle FileAccessAgent) as [Lf Uf].
      pose proof (Vd FileAccessAgent) as Vdf. cbn [holds agent_eqb] in Vdf.
      split; [lia|]. split; [lia|]. split; [lia|].
      intros Hn. rewrite (Heq) ; [lia|].
      intros b Hb. pose proof (Vf PythonExecAgent) as Vp. rewrite Hb in Vp.
      destruct b; [exact Hn|cbn in Vp; lia].
    + rewrite (script_file_missing w Hi He). repeat split; cbn; auto.
  - rewrite (script_import_raises w e Hi).
    destruct (is_ImportError e); repeat split; cbn; auto.
Qed.

Lemma status_silence_cleanup (w : world) :
  cleanup_benign w -> status w = status (silence_cleanup w).
Proof.
  intros Hb. unfold status.
  destruct (import_agents w) as [[]|e] eqn:Hi.
  - destruct (os_path_exists w (csv_path w)) eqn:He.
    + rewrite (run_file_found w Hi He), (run_file_found (silence_cleanup w) Hi He).
      cbn [fst]. rewrite !try_finally_benign by (auto using cleanup_benign_silence).
      reflexivity.
    + now rewrite (script_file_missing w Hi He), (script_file_missing (silence_cleanup w) Hi He).
  - now rewrite (script_import_raises w e Hi), (script_import_raises (silence_cleanup w) e Hi).
Qed.

(** C1, as amended.  Exceptions and interrupts arise from the calls the
    script makes.  In every run, whichever way the inner [try] ends:
    [cleanup()] is called on an agent at most as often as a constructor call
    for it returned, which is at most once; on the file agent exactly as
    often; and on the code-execution agent exactly as often provided the
    [cleanup()] of the file agent is not interrupted, that is, returns or
    raises an [Exception], which therefore never prevents the second
    cleanup.  Provided no [cleanup()] is interrupted, the exit status is what
    it would be had every [cleanup()] returned. *)
Theorem cleanup_once_per_constructed_agent (w : world) :
  (forall a,
     count (is_cleanup a) (trace w) <= count (is_constructed a) (trace w) /\
     count (is_constructed a) (trace w) <= 1) /\
  count (is_cleanup FileAccessAgent) (trace w) =
    count (is_constructed FileAccessAgent) (trace w) /\
  (cleanup_not_interrupted w FileAccessAgent ->
   count (is_cleanup PythonExecAgent) (trace w) =
     count (is_constructed PythonExecAgent) (trace w)) /\
  (cleanup_benign w -> status w = status (silence_cleanup w)).
Proof.
  split; [|split; [|split]].
  - intros a. destruct (trace_cleanup_counts w a) as (H1 & H2 & _). now split.
  - exact (proj1 (proj2 (proj2 (trace_cleanup_counts w FileAccessAgent)))).
  - exact (proj2 (proj2 (proj2 (trace_cleanup_counts w PythonExecAgent)))).
  - apply status_silence_cleanup.
Qed.

Lemma cleanup_once_per_constructed_agent_witness :
  (cleanup_not_interrupted w_data_cleanup_interrupted FileAccessAgent /\
   In (Cleanup FileAccessAgent (Raises (OtherException "RuntimeError")))
      (trace w_data_cleanup_interrupted) /\
   In (Cleanup PythonExecAgent (Raises KeyboardInterrupt))
      (trace w_data_cleanup_interrupted) /\
   count (is_cleanup FileAccessAgent) (trace w_data_cleanup_interrupted) = 1 /\
   count (is_cleanup PythonExecAgent) (trace w_data_cleanup_interrupted) = 1) /\
  (cleanup_benign w_second_constructor_fails /\
   count (is_constructed FileAccessAgent) (trace w_second_constructor_fails) = 1 /\
   count (is_cleanup FileAccessAgent) (trace w_second_constructor_fails) = 1 /\
   count (is_cleanup PythonExecAgent) (trace w_second_constructor_fails) = 0 /\
   status w_second_constructor_fails = 1%Z /\
   status (silence_cleanup w_second_constructor_fails) = 1%Z).
Proof.
  assert (Hn : cleanup_not_interrupted w_data_cleanup_interrupted FileAccessAgent)
    by (intros h; reflexivity).
  assert (Hb : cleanup_benign w_second_constructor_fails) by (intros a h; reflexivity).
  destruct (cleanup_once_per_constructed_agent w_data_cleanup_interrupted)
    as (_ & Hf & Hp & _).
  destruct (cleanup_once_per_constructed_agent w_second_constructor_fails)
    as (_ & Hf' & Hp' & Hs').
  split.
  - split; [exact Hn|].
    split; [vm_compute; tauto|]. split; [vm_compute; tauto|].
    split; [rewrite Hf; reflexivity|rewrite (Hp Hn); reflexivity].
  - split; [exact Hb|]. split; [reflexivity|].
    split; [rewrite Hf'; reflexivity|].
    split; [rewrite (Hp' (Hb FileAccessAgent)); reflexivity|].
    split; [rewrite (Hs' Hb); reflexivity|reflexivity].
Defined.

(** C1 as stated fails: the file description raises an ordinary error and
    the user interrupts the cleanup of the file agent.  The code-execution
    agent was constructed and is never cleaned up, and the run ends with
    status 0 where it ends with 1 when the cleanups return. *)
Lemma cleanup_skipped_when_interrupted :
  count (is_constructed PythonExecAgent) (trace w_cleanup_interrupted) = 1 /\
  count (is_cleanup PythonExecAgent) (trace w_cleanup_interrupted) = 0 /\
  In (Cleanup FileAccessAgent (Raises KeyboardInterrupt)) (trace w_cleanup_interrupted) /\
  status w_cleanup_interrupted = 0%Z /\
  status (silence_cleanup w_cleanup_interrupted) = 1%Z.
Proof.
  repeat split; try reflexivity.
  vm_compute. tauto.
Qed.

(** ** C2 and C8: the data file check *)

Lemma quiet_method_cleanup (w : world) (v : pyvalue) :
  quiet teardown_event (method_cleanup w v).
Proof. destruct v; cbn [method_cleanup]; quiet_auto. Qed.

Lemma quiet_cleanup_block (w : world) : quiet teardown_event (cleanup_block w).
Proof.
  assert (H : forall msg v,
             quiet teardown_event
               (try_except (method_cleanup w v) (cleanup_handler msg))).
  { intros msg v. apply quiet_try_except; [apply quiet_method_cleanup|].
    intros e h Hh. unfold cleanup_handler in Hh.
    destruct (is_Exception e); [|discriminate].
    injection Hh as <-. quiet_auto. }
  unfold cleanup_block.
  apply quiet_bind; [quiet_auto|intros fv].
  apply quiet_bind; [destruct (truthy fv); [apply H|quiet_auto]|intros _].
  apply quiet_bind; [quiet_auto|intros dv].
  destruct (truthy dv); [apply H|quiet_auto].
Qed.

(** With the modules imported and the file found, a run is the setup, then
    the inner [try] body, then the [finally] block, then the outer handler. *)
Lemma trace_file_found (w : world) :
  import_agents w = Returns tt ->
  os_path_exists w (csv_path w) = true ->
  exists evs cevs,
    history (snd (agents_session w (st_setup w))) = setup_events w true ++ evs /\
    forallb teardown_event cevs = true /\
    trace w =
      setup_events w true ++ evs ++ cevs ++
      outer_events (fst (try_finally (agents_session w) (cleanup_block w) (st_setup w))).
Proof.
  intros Hi He. unfold trace. rewrite (run_file_found w Hi He). cbn [snd].
  set (r := fst _). clearbody r.
  unfold try_finally, st_setup.
  pose proof (agents_session_invariant w (setup_events w true)) as (evs & Eh & _).
  destruct (agents_session w _) as [r1 s1]. cbn [snd] in Eh.
  destruct (quiet_cleanup_block w s1) as (cevs & Ec & Ft).
  destruct (cleanup_block w s1) as [[u|e] s2]; cbn [snd] in Ec; subst s2;
    exists evs, cevs; cbn [snd extend history]; rewrite Eh, <- !app_assoc; auto.
Qed.

(** C2.  When the data file is absent, no agent constructor is ever called;
    and once the agent modules are imported, so that [main] runs, the run
    logs and prints the error and ends with status 1. *)
Theorem missing_file_aborts (w : world) :
  os_path_exists w (csv_path w) = false ->
  count is_construct_call (trace w) = 0 /\
  (import_agents w = Returns tt ->
   status w = 1%Z /\
   trace w =
     setup_events w false ++
     [Log ERROR ("Required file not found: " ++ csv_path w); Print msg_file_missing]).
Proof.
  intros He. split.
  - unfold trace. destruct (import_agents w) as [[]|e] eqn:Hi.
    + now rewrite (script_file_missing w Hi He).
    + rewrite (script_import_raises w e Hi). now destruct (is_ImportError e).
  - intros Hi. unfold status, trace. now rewrite (script_file_missing w Hi He).
Qed.

Lemma missing_file_aborts_witness :
  os_path_exists w_file_missing (csv_path w_file_missing) = false /\
  import_agents w_file_missing = Returns tt /\
  count is_construct_call (trace w_file_missing) = 0 /\
  status w_file_missing = 1%Z /\
  In (Print msg_file_missing) (trace w_file_missing).
Proof.
  assert (He : os_path_exists w_file_missing (csv_path w_file_missing) = false)
    by reflexivity.
  destruct (missing_file_aborts w_file_missing He) as [Hc Hm].
  destruct (Hm eq_refl) as [Hs Ht].
  split; [exact He|]. split; [reflexivity|]. split; [exact Hc|]. split; [exact Hs|].
  rewrite Ht. apply in_or_app. right. right. left. reflexivity.
Defined.

(** C8.  Once the modules are imported, every run starts by printing the
    setup header and the dataset prompt, and only then checks the data file.
    When the file is missing the prompt has been printed exactly once, the
    error message comes after it, and neither the invitation to type a
    question nor any console read follows. *)
Theorem prompt_printed_before_file_check (w : world) :
  import_agents w = Returns tt ->
  (exists rest,
     trace w =
       [Import (Returns tt); Print msg_setup; Print prompt; Log INFO msg_setting_up;
        PathExists (csv_path w) (os_path_exists w (csv_path w))] ++ rest) /\
  (os_path_exists w (csv_path w) = false ->
   trace w =
     [Import (Returns tt); Print msg_setup; Print prompt; Log INFO msg_setting_up;
      PathExists (csv_path w) false;
      Log ERROR ("Required file not found: " ++ csv_path w); Print msg_file_missing] /\
   count (is_print_of prompt) (trace w) = 1 /\
   count (is_print_of msg_type_question) (trace w) = 0 /\
   count is_input (trace w) = 0).
Proof.
  intros Hi. split.
  - destruct (os_path_exists w (csv_path w)) eqn:He.
    + destruct (trace_file_found w Hi He) as (evs & cevs & _ & _ & Ht).
      rewrite Ht. eexists. reflexivity.
    + unfold trace. rewrite (script_file_missing w Hi He). eexists. reflexivity.
  - intros He. unfold trace. rewrite (script_file_missing w Hi He).
    cbn [snd setup_events app]. repeat split; reflexivity.
Qed.

Lemma prompt_printed_before_file_check_witness :
  import_agents w_file_missing = Returns tt /\
  os_path_exists w_file_missing (csv_path w_file_missing) = false /\
  count (is_print_of prompt) (trace w_file_missing) = 1 /\
  count is_input (trace w_file_missing) = 0.
Proof.
  destruct (prompt_printed_before_file_check w_file_missing eq_refl) as [_ Hm].
  destruct (Hm eq_refl) as (_ & Hp & _ & Hn).
  split; [reflexivity|]. split; [reflexivity|]. split; [exact Hp|exact Hn].
Defined.

(** ** C9 and C4: a turn that is a question *)

(** C9.  A line that is not [exit] once stripped and lowercased, the empty
    and the blank line included, is echoed stripped and dispatched in
    exactly one [task()] call on the code-execution agent with the stripped
    text as argument.  The stripped text [q] is the line without the
    whitespace characters, ASCII or not, at its two ends: the line is [q]
    between two blank strings and [q] neither starts nor ends with a
    whitespace character.  The turn appends the invitation, the read, the
    echo of [q], the progress line, that one call on [q] and what follows
    from its outcome. *)
Theorem question_dispatched_once (w : world) (line : string) (st : state) :
  exit_read (Returns line) = false ->
  data_analysis_agent st = PyAgent PythonExecAgent ->
  exists pre q post o evs,
    blank pre /\ blank post /\ line = (pre ++ q ++ post)%string /\
    trimmed q /\ q = strip line /\ is_exit_word q = false /\
    o = agent_task w PythonExecAgent q
          (history st ++ [Print msg_type_question; Input input_prompt (Returns line);
                          Print ("User question: " ++ q); Print msg_generating]) /\
    evs = [Print msg_type_question; Input input_prompt (Returns line);
           Print ("User question: " ++ q); Print msg_generating;
           Task PythonExecAgent q o] ++ answer_events o /\
    snd (loop_body w (Returns line) st) = extend st evs /\
    count (is_task PythonExecAgent) evs = 1 /\
    count (is_task FileAccessAgent) evs = 0.
Proof.
  intros H Ha.
  pose proof (loop_body_question w line st PythonExecAgent H Ha) as E.
  cbv zeta in E.
  destruct (strip_decompose line) as (pre & post & Hpre & Hpost & El).
  exists pre, (strip line), post.
  eexists; eexists.
  split; [exact Hpre|]. split; [exact Hpost|]. split; [exact El|].
  split; [apply strip_trimmed|]. split; [reflexivity|].
  split; [cbn [exit_read] in H; now rewrite <- exit_word_lower|].
  split; [reflexivity|]. split; [reflexivity|].
  split; [rewrite E; reflexivity|].
  rewrite !count_app.
  destruct (agent_task w PythonExecAgent (strip line) _) as [out|e];
    [|destruct e]; split; reflexivity.
Qed.

Lemma question_dispatched_once_witness :
  exit_read (Returns (nbsp ++ " How many rows?" ++ ideographic_space)%string) = false /\
  exists pre q post o evs,
    blank pre /\ blank post /\
    (nbsp ++ " How many rows?" ++ ideographic_space)%string = (pre ++ q ++ post)%string /\
    trimmed q /\ q = "How many rows?" /\ is_exit_word q = false /\
    o = Returns "42" /\
    In (Task PythonExecAgent q o) evs /\
    snd (loop_body (friendly [])
           (Returns (nbsp ++ " How many rows?" ++ ideographic_space)%string) st_agents)
      = extend st_agents evs /\
    count (is_task PythonExecAgent) evs = 1 /\
    count (is_task FileAccessAgent) evs = 0.
Proof.
  split; [reflexivity|].
  destruct (question_dispatched_once (friendly [])
              (nbsp ++ " How many rows?" ++ ideographic_space)%string st_agents
              eq_refl eq_refl)
    as (pre & q & post & o & evs & Hpre & Hpost & El & Ht & Eq & Hw & Ho & He & Hs & Hc & Hf).
  exists pre, q, post, o, evs.
  split; [exact Hpre|]. split; [exact Hpost|]. split; [exact El|].
  split; [exact Ht|]. split; [exact Eq|]. split; [exact Hw|].
  split; [exact Ho|].
  split; [rewrite He; apply in_or_app; left; cbn [In]; tauto|].
  split; [exact Hs|]. split; [exact Hc|exact Hf].
Defined.

(** C4.  When the [task()] call of a turn raises an [Exception], the turn
    logs it, prints the failure message and falls through: the loop goes on
    with the remaining input from the state the turn left, and a question
    that comes next gets its own [task()] call. *)
Theorem failed_question_keeps_session (w : world) (line : string)
        (rest : list (outcome string)) (st : state) (e : exn) :
  exit_read (Returns line) = false ->
  data_analysis_agent st = PyAgent PythonExecAgent ->
  agent_task w PythonExecAgent (strip line) (history st ++ question_events line)
    = Raises e ->
  is_Exception e = true ->
  let st' :=
    extend st (question_events line ++
               [Task PythonExecAgent (strip line) (Raises e);
                Log ERROR msg_task_error; LogException e; Print msg_try_again]) in
  loop_body w (Returns line) st = (Returns Continue, st') /\
  interactive_loop w (Returns line :: rest) st = interactive_loop w rest st' /\
  forall next rest',
    rest = Returns next :: rest' ->
    exit_read (Returns next) = false ->
    exists o evs,
      snd (interactive_loop w (Returns line :: rest) st) =
        extend st' (question_events next ++ [Task PythonExecAgent (strip next) o] ++ evs).
Proof.
  intros H Ha Ht He st'.
  pose proof (loop_body_question w line st PythonExecAgent H Ha) as E1.
  pose proof (interactive_loop_question w line rest st PythonExecAgent H Ha) as E2.
  cbv zeta in E1, E2. rewrite Ht, He in E1, E2. cbn [answer_events] in E1, E2.
  rewrite He in E1, E2. cbn [app] in E1, E2. fold st' in E1, E2.
  split; [exact E1|]. split; [exact E2|].
  intros next rest' -> Hn. rewrite E2.
  assert (Ha' : data_analysis_agent st' = PyAgent PythonExecAgent) by exact Ha.
  pose proof (interactive_loop_question w next rest' st' PythonExecAgent Hn Ha') as E3.
  cbv zeta in E3. rewrite E3.
  set (o := agent_task w PythonExecAgent (strip next) _).
  set (st2 := extend st' _).
  destruct (quiet_interactive_loop w rest' st2) as (evs & Ev & _).
  exists o.
  destruct o as [out|e']; [|destruct (is_Exception e')].
  - rewrite Ev. subst st2. rewrite extend_extend, <- !app_assoc.
    eexists. reflexivity.
  - rewrite Ev. subst st2. rewrite extend_extend, <- !app_assoc.
    eexists. reflexivity.
  - cbn [snd]. subst st2. eexists. reflexivity.
Qed.

Lemma failed_question_keeps_session_witness :
  exists o evs,
    snd (interactive_loop w_first_question_fails
           [Returns " mean speed? "; Returns "max speed?"] st_agents) =
    extend st_agents
      ((question_events " mean speed? " ++
        [Task PythonExecAgent "mean speed?" (Raises (OtherException "RuntimeError"));
         Log ERROR msg_task_error; LogException (OtherException "RuntimeError");
         Print msg_try_again]) ++
       question_events "max speed?" ++ [Task PythonExecAgent "max speed?" o] ++ evs).
Proof.
  destruct (failed_question_keeps_session w_first_question_fails " mean speed? "
              [Returns "max speed?"] st_agents (OtherException "RuntimeError")
              eq_refl eq_refl eq_refl eq_refl) as (_ & _ & Hnext).
  destruct (Hnext "max speed?" [] eq_refl eq_refl) as (o & evs & E).
  exists o, evs. rewrite E. rewrite extend_extend. reflexivity.
Defined.

(** ** Runs that construct both agents *)

Ltac unfold_hists :=
  unfold hist_seeded, hist_context, hist_described, hist_agents, hist_file_agent in *;
  cbn [app] in *; rewrite <- ?app_assoc in *; cbn [app] in *.

Lemma agents_session_constructed (w : world) :
  agents_constructed w ->
  agents_session w (st_setup w) =
  session_tail w
    (st_both (hist_file_agent w ++
              [Construct PythonExecAgent python_exec_kwargs (Returns tt)])).
Proof.
  intros (_ & _ & Hf & Hp). rewrite agents_session_split.
  unfold st_setup, st_both. unfold_hists.
  cbv beta iota zeta delta
    [bind ret raise emit lift construct get_history extend
     set_file_ingestion_agent set_data_analysis_agent].
  cbn [app history file_ingestion_agent data_analysis_agent].
  rewrite Hf. cbn [app history file_ingestion_agent data_analysis_agent].
  rewrite <- ?app_assoc; cbn [app]. rewrite Hp.
  cbn [app history file_ingestion_agent data_analysis_agent].
  rewrite <- ?app_assoc; cbn [app]. reflexivity.
Qed.

Lemma agents_session_seeded (w : world) (out : string) :
  seeded w out ->
  agents_session w (st_setup w) =
  interactive_loop w (stdin w) (st_both (hist_seeded w out)).
Proof.
  intros (Hc & Ht & Ha1 & Ha2). rewrite (agents_session_constructed w Hc).
  unfold st_both, session_tail. unfold_hists.
  unfold_script. rewrite <- ?app_assoc; cbn [app].
  rewrite Ht. unfold_script. rewrite <- ?app_assoc; cbn [app].
  rewrite Ha1. unfold_script. rewrite <- ?app_assoc; cbn [app].
  rewrite Ha2. unfold_script. rewrite <- ?app_assoc; cbn [app].
  reflexivity.
Qed.

Lemma agents_session_seeding_fails (w : world) (e : exn) (h : list event) :
  agents_constructed w ->
  seeding_fails w e h ->
  agents_session w (st_setup w) = (Raises e, st_both h).
Proof.
  intros Hc Hf. rewrite (agents_session_constructed w Hc).
  unfold st_both, session_tail.
  destruct Hf as [(Ht & ->)|[(out & Ht & Ha1 & ->)|(out & Ht & Ha1 & Ha2 & ->)]];
    unfold_hists; unfold_script; rewrite <- ?app_assoc; cbn [app];
    rewrite Ht; unfold_script; rewrite <- ?app_assoc; cbn [app]; try reflexivity;
    rewrite Ha1; unfold_script; rewrite <- ?app_assoc; cbn [app]; try reflexivity;
    rewrite Ha2; unfold_script; rewrite <- ?app_assoc; cbn [app]; reflexivity.
Qed.

(** How a run ends once the inner [try] body is over with both agents
    constructed, when no cleanup is interrupted. *)
Lemma run_after_session (w : world) (r : outcome unit) (s1 : state) :
  import_agents w = Returns tt ->
  os_path_exists w (csv_path w) = true ->
  cleanup_benign w ->
  agents_session w (st_setup w) = (r, s1) ->
  exists cevs,
    forallb teardown_event cevs = true /\
    (forall a, count (is_cleanup a) cevs =
               holds (file_ingestion_agent s1) a + holds (data_analysis_agent s1) a) /\
    run w = (outer_status r, history s1 ++ cevs ++ outer_events r).
Proof.
  intros Hi He Hb Hs. rewrite (run_file_found w Hi He).
  unfold try_finally. rewrite Hs.
  destruct (cleanup_block_benign w s1 Hb) as (cevs & Ec & Ft & Hc).
  rewrite Ec. exists cevs. cbn [fst snd extend history].
  now rewrite <- app_assoc.
Qed.

Lemma teardown_counts (cevs : list event) :
  forallb teardown_event cevs = true ->
  (forall s, count (is_print_of s) cevs = 0) /\
  (forall a, count (is_task a) cevs = 0) /\
  count is_add_context cevs = 0 /\
  count is_input cevs = 0.
Proof.
  intros Ft. repeat split; intros;
    apply (count_zero_of teardown_event); auto;
    intros e; destruct e; cbn; congruence.
Qed.

(** How a run ends once the inner [try] body is over with both agents
    constructed, whatever the [cleanup()] calls do. *)
Lemma run_with_both_agents (w : world) (r : outcome unit) (h : list event) :
  import_agents w = Returns tt ->
  os_path_exists w (csv_path w) = true ->
  agents_session w (st_setup w) = (r, st_both h) ->
  exists rc cevs,
    trace w = h ++ cevs ++ outer_events (finally_result r rc) /\
    status w = outer_status (finally_result r rc) /\
    forallb cleanup_event cevs = true /\
    count (is_cleanup FileAccessAgent) cevs = 1 /\
    (cleanup_not_interrupted w FileAccessAgent ->
     count (is_cleanup PythonExecAgent) cevs = 1) /\
    (cleanup_no_exit w -> rc = Returns tt \/ rc = Raises KeyboardInterrupt) /\
    (cleanup_benign w -> rc = Returns tt).
Proof.
  intros Hi He Hs. unfold trace, status. rewrite (run_file_found w Hi He).
  unfold try_finally. rewrite Hs.
  destruct (cleanup_block_spec w (st_both h)) as (rc & cevs & Ec & Fc & Hle & Heq & Hrc).
  rewrite Ec. exists rc, cevs.
  split; [destruct rc; cbn [fst snd extend history st_both finally_result];
          now rewrite <- app_assoc|].
  split; [destruct rc; reflexivity|].
  split; [exact Fc|].
  split; [destruct (Hle FileAccessAgent) as [L U]; cbn in L, U; lia|].
  split.
  { intros Hn. rewrite Heq; [reflexivity|].
    intros a E. cbn in E. injection E as <-. exact Hn. }
  split.
  - intros Hx. destruct Hrc as [->|(a & h' & e & E & Hne & ->)]; [now left|].
    destruct (Hx a h' e E) as [Ht| ->]; [congruence|now right].
  - intros Hb. destruct Hrc as [->|(a & h' & e & E & Hne & ->)]; [reflexivity|].
    specialize (Hb a h'). rewrite E in Hb. congruence.
Qed.

Lemma closing_counts (tevs : list event) :
  forallb closing_event tevs = true ->
  count is_input tevs = 0 /\
  (forall a, count (is_task a) tevs = 0) /\
  count is_add_context tevs = 0 /\
  count (is_print_of prompt) tevs = 0 /\
  count (is_print_of msg_try_again) tevs = 0.
Proof.
  intros Ft. repeat split; intros;
    apply (count_zero_of closing_event); auto;
    intros e; destruct e; cbn; try congruence;
    intros H; apply String.eqb_eq in H; subst; reflexivity.
Qed.

Lemma closing_events (cevs : list event) (r : outcome unit) :
  forallb cleanup_event cevs = true ->
  forallb closing_event (cevs ++ outer_events r) = true.
Proof.
  intros Fc. rewrite forallb_app. apply andb_true_iff. split.
  - rewrite forallb_forall in *. intros e He. specialize (Fc e He).
    destruct e as [| | [] | | | | | | |]; try discriminate Fc; reflexivity.
  - destruct r as [u|[]]; reflexivity.
Qed.

(** ** C6: the user leaves at once *)

(** C6, as amended.  When the setup succeeds and the first line read is
    [exit], the run starts with: the setup with the prompt printed once,
    both constructors, one [task(prompt)] on the file agent,
    [add_context(prompt)] and then [add_context] of the description, the
    invitation, the read, the farewell.  What follows is the teardown and
    the outer handler only: no question reaches the code-execution agent.
    The file agent is cleaned up once; the code-execution agent is cleaned
    up once provided the [cleanup()] of the file agent is not interrupted;
    the status is 0 provided no [cleanup()] raises anything but an
    [Exception] or a [KeyboardInterrupt]. *)
Theorem immediate_exit_run (w : world) (out line : string) (rest : list (outcome string)) :
  seeded w out ->
  stdin w = Returns line :: rest ->
  exit_read (Returns line) = true ->
  exists tevs,
    trace w =
      [Import (Returns tt); Print msg_setup; Print prompt; Log INFO msg_setting_up;
       PathExists (csv_path w) true;
       Construct FileAccessAgent [] (Returns tt);
       Construct PythonExecAgent python_exec_kwargs (Returns tt);
       Print msg_understanding;
       Task FileAccessAgent prompt (Returns out);
       AddContext PythonExecAgent prompt (Returns tt);
       AddContext PythonExecAgent out (Returns tt);
       Print msg_type_question; Input input_prompt (Returns line); Print msg_exiting]
      ++ tevs /\
    forallb closing_event tevs = true /\
    count (is_print_of prompt) (trace w) = 1 /\
    count (is_task FileAccessAgent) (trace w) = 1 /\
    count is_add_context (trace w) = 2 /\
    count (is_task PythonExecAgent) (trace w) = 0 /\
    count is_input (trace w) = 1 /\
    count (is_cleanup FileAccessAgent) (trace w) = 1 /\
    (cleanup_not_interrupted w FileAccessAgent ->
     count (is_cleanup PythonExecAgent) (trace w) = 1) /\
    (cleanup_no_exit w -> status w = 0%Z) /\
    (cleanup_benign w -> forallb cleanup_event tevs = true).
Proof.
  intros Hs Hin Hx.
  pose proof Hs as ((Hi & He & _) & _).
  pose proof (agents_session_seeded w out Hs) as E.
  rewrite Hin, (interactive_loop_break w _ rest _ Hx) in E.
  destruct (run_with_both_agents w _ _ Hi He E)
    as (rc & cevs & Ht & Hst & Fc & Hcf & Hcp & Hne & Hbn).
  exists (cevs ++ outer_events (finally_result (Returns tt) rc)).
  rewrite Ht, Hst.
  pose proof (closing_events cevs (finally_result (Returns tt) rc) Fc) as Fx.
  destruct (closing_counts _ Fx) as (Xi & Xt & Xa & Xp & _).
  destruct (outer_events_no_cleanup FileAccessAgent (finally_result (Returns tt) rc))
    as [Of _].
  destruct (outer_events_no_cleanup PythonExecAgent (finally_result (Returns tt) rc))
    as [Op _].
  cbn [farewell extend st_both history]. unfold_hists. unfold setup_events. cbn [app].
  split; [reflexivity|]. split; [exact Fx|].
  change (?e1 :: ?e2 :: ?e3 :: ?e4 :: ?e5 :: ?e6 :: ?e7 :: ?e8 :: ?e9 :: ?e10 ::
          ?e11 :: ?e12 :: ?e13 :: ?e14 :: ?tl)
    with ([e1; e2; e3; e4; e5; e6; e7; e8; e9; e10; e11; e12; e13; e14] ++ tl).
  rewrite !(count_app _ _ (cevs ++ _)), Xi, !Xt, Xa, Xp.
  rewrite !(count_app _ cevs), Of, Op, Hcf.
  split; [reflexivity|]. split; [reflexivity|]. split; [reflexivity|].
  split; [reflexivity|]. split; [reflexivity|]. split; [reflexivity|].
  split; [intros Hn; rewrite (Hcp Hn); reflexivity|].
  split.
  - intros Hn. destruct (Hne Hn) as [-> | ->]; reflexivity.
  - intros Hb. rewrite (Hbn Hb). cbn [finally_result outer_events].
    now rewrite app_nil_r.
Qed.

Lemma immediate_exit_run_witness :
  (seeded (friendly [Returns (nbsp ++ " EXIT ")%string]) "10 columns, 840 rows" /\
   cleanup_benign (friendly [Returns (nbsp ++ " EXIT ")%string]) /\
   status (friendly [Returns (nbsp ++ " EXIT ")%string]) = 0%Z /\
   count is_add_context (trace (friendly [Returns (nbsp ++ " EXIT ")%string])) = 2 /\
   count (is_cleanup PythonExecAgent)
     (trace (friendly [Returns (nbsp ++ " EXIT ")%string])) = 1) /\
  (seeded w_data_cleanup_interrupted "10 columns, 840 rows" /\
   cleanup_not_interrupted w_data_cleanup_interrupted FileAccessAgent /\
   cleanup_no_exit w_data_cleanup_interrupted /\
   count (is_cleanup PythonExecAgent) (trace w_data_cleanup_interrupted) = 1 /\
   status w_data_cleanup_interrupted = 0%Z).
Proof.
  split.
  - assert (Hs : seeded (friendly [Returns (nbsp ++ " EXIT ")%string])
                   "10 columns, 840 rows")
      by (repeat split; reflexivity).
    assert (Hb : cleanup_benign (friendly [Returns (nbsp ++ " EXIT ")%string]))
      by (intros a h; exact I).
    assert (Hx : cleanup_no_exit (friendly [Returns (nbsp ++ " EXIT ")%string]))
      by (intros a h e E; discriminate E).
    destruct (immediate_exit_run (friendly [Returns (nbsp ++ " EXIT ")%string])
                "10 columns, 840 rows" (nbsp ++ " EXIT ")%string [] Hs eq_refl eq_refl)
      as (tevs & _ & _ & _ & _ & Hac & _ & _ & _ & Hcp & Hst & _).
    split; [exact Hs|]. split; [exact Hb|]. split; [exact (Hst Hx)|].
    split; [exact Hac|exact (Hcp (Hb FileAccessAgent))].
  - assert (Hs : seeded w_data_cleanup_interrupted "10 columns, 840 rows")
      by (repeat split; reflexivity).
    assert (Hn : cleanup_not_interrupted w_data_cleanup_interrupted FileAccessAgent)
      by (intros h; reflexivity).
    assert (Hx : cleanup_no_exit w_data_cleanup_interrupted).
    { intros a h e E. destruct a; cbn in E; injection E as <-; [now left|now right]. }
    destruct (immediate_exit_run w_data_cleanup_interrupted
                "10 columns, 840 rows" "exit" [] Hs eq_refl eq_refl)
      as (tevs & _ & _ & _ & _ & _ & _ & _ & _ & Hcp & Hst & _).
    split; [exact Hs|]. split; [exact Hn|]. split; [exact Hx|].
    split; [exact (Hcp Hn)|exact (Hst Hx)].
Defined.

(** C6 as stated fails: the setup succeeds and the user types [exit] at
    once, then interrupts the cleanup of the file agent.  The
    code-execution agent was constructed and is never cleaned up. *)
Lemma immediate_exit_cleanup_skipped :
  seeded w_exit_cleanup_interrupted "10 columns, 840 rows" /\
  stdin w_exit_cleanup_interrupted = [Returns "exit"] /\
  exit_read (Returns "exit") = true /\
  count (is_constructed PythonExecAgent) (trace w_exit_cleanup_interrupted) = 1 /\
  In (Cleanup FileAccessAgent (Raises KeyboardInterrupt))
     (trace w_exit_cleanup_interrupted) /\
  count (is_cleanup PythonExecAgent) (trace w_exit_cleanup_interrupted) = 0.
Proof.
  split; [repeat split; reflexivity|].
  split; [reflexivity|]. split; [reflexivity|]. split; [reflexivity|].
  split; [vm_compute; tauto|reflexivity].
Qed.

(** ** C7: errors while seeding *)

(** C7, as amended.  When the file description or one of the two
    [add_context] calls raises an [Exception], nothing recovers it in
    place: the loop is never entered (no console read, no retry message, no
    question to the code-execution agent) and what follows the failing
    call is the teardown and the outer handler only.  The file agent is
    cleaned up once; the code-execution agent is cleaned up once provided
    the [cleanup()] of the file agent is not interrupted; and provided no
    [cleanup()] is interrupted, the outer handler logs the error last and
    the status is 1. *)
Theorem seeding_error_is_fatal (w : world) (e : exn) (h : list event) :
  agents_constructed w ->
  is_Exception e = true ->
  seeding_fails w e h ->
  exists tevs,
    trace w = h ++ tevs /\
    forallb closing_event tevs = true /\
    count is_input (trace w) = 0 /\
    count (is_print_of msg_try_again) (trace w) = 0 /\
    count (is_task PythonExecAgent) (trace w) = 0 /\
    count (is_cleanup FileAccessAgent) (trace w) = 1 /\
    (cleanup_not_interrupted w FileAccessAgent ->
     count (is_cleanup PythonExecAgent) (trace w) = 1) /\
    (cleanup_benign w ->
     status w = 1%Z /\
     exists cevs,
       tevs = cevs ++ [Log ERROR msg_unexpected; LogException e] /\
       forallb cleanup_event cevs = true).
Proof.
  intros Hc He Hf.
  pose proof Hc as (Hi & Hx & _).
  pose proof (agents_session_seeding_fails w e h Hc Hf) as E.
  destruct (run_with_both_agents w _ _ Hi Hx E)
    as (rc & cevs & Ht & Hst & Fc & Hcf & Hcp & _ & Hbn).
  exists (cevs ++ outer_events (finally_result (Raises e) rc)).
  rewrite Ht, Hst.
  pose proof (closing_events cevs (finally_result (Raises e) rc) Fc) as Fx.
  destruct (closing_counts _ Fx) as (Xi & Xt & _ & _ & Xr).
  destruct (outer_events_no_cleanup FileAccessAgent (finally_result (Raises e) rc))
    as [Of _].
  destruct (outer_events_no_cleanup PythonExecAgent (finally_result (Raises e) rc))
    as [Op _].
  split; [reflexivity|]. split; [exact Fx|].
  rewrite !(count_app _ h), Xi, Xt, Xr.
  rewrite !(count_app _ cevs), Of, Op, Hcf.
  assert (Hh : count is_input h = 0 /\
               count (is_print_of msg_try_again) h = 0 /\
               count (is_task PythonExecAgent) h = 0 /\
               count (is_cleanup FileAccessAgent) h = 0 /\
               count (is_cleanup PythonExecAgent) h = 0).
  { destruct Hf as [(_ & ->)|[(out & _ & _ & ->)|(out & _ & _ & _ & ->)]];
      unfold_hists; unfold setup_events; repeat split; reflexivity. }
  destruct Hh as (H1 & H2 & H3 & H4 & H5). rewrite H1, H2, H3, H4, H5.
  split; [reflexivity|]. split; [reflexivity|]. split; [reflexivity|].
  split; [reflexivity|].
  split; [intros Hn; rewrite (Hcp Hn); reflexivity|].
  intros Hb. rewrite (Hbn Hb). cbn [finally_result].
  assert (Ho : outer_events (Raises e) = [Log ERROR msg_unexpected; LogException e])
    by (destruct e; try discriminate He; reflexivity).
  assert (Hs : outer_status (Raises e) = 1%Z)
    by (destruct e; try discriminate He; reflexivity).
  rewrite Ho, Hs. split; [reflexivity|].
  exists cevs. split; [reflexivity|exact Fc].
Qed.

Lemma seeding_error_is_fatal_witness :
  agents_constructed w_add_context_fails /\
  cleanup_benign w_add_context_fails /\
  status w_add_context_fails = 1%Z /\
  count is_input (trace w_add_context_fails) = 0 /\
  count (is_cleanup FileAccessAgent) (trace w_add_context_fails) = 1 /\
  count (is_cleanup PythonExecAgent) (trace w_add_context_fails) = 1.
Proof.
  assert (Hc : agents_constructed w_add_context_fails) by (repeat split; reflexivity).
  assert (Hb : cleanup_benign w_add_context_fails) by (intros a h; exact I).
  assert (Hf : seeding_fails w_add_context_fails (OtherException "APIError")
                 (hist_described w_add_context_fails "10 columns, 840 rows" ++
                  [AddContext PythonExecAgent prompt (Raises (OtherException "APIError"))])).
  { right. left. exists "10 columns, 840 rows". repeat split; reflexivity. }
  destruct (seeding_error_is_fatal w_add_context_fails (OtherException "APIError") _
              Hc eq_refl Hf)
    as (tevs & _ & _ & Hin & _ & _ & Hcf & Hcp & Hst).
  split; [exact Hc|]. split; [exact Hb|]. split; [exact (proj1 (Hst Hb))|].
  split; [exact Hin|]. split; [exact Hcf|exact (Hcp (Hb FileAccessAgent))].
Defined.

(** C7 as stated fails: the first [add_context] raises an ordinary error
    and the user interrupts the cleanup of the file agent.  The interrupt
    replaces the error: the outer handler takes the graceful path, logs
    nothing, and the status is 0; the code-execution agent is never cleaned
    up. *)
Lemma seeding_error_lost_when_cleanup_interrupted :
  agents_constructed w_seeding_cleanup_interrupted /\
  seeding_fails w_seeding_cleanup_interrupted (OtherException "APIError")
    (hist_described w_seeding_cleanup_interrupted "10 columns, 840 rows" ++
     [AddContext PythonExecAgent prompt (Raises (OtherException "APIError"))]) /\
  status w_seeding_cleanup_interrupted = 0%Z /\
  count (is_log_of msg_unexpected) (trace w_seeding_cleanup_interrupted) = 0 /\
  count (is_print_of msg_interrupted) (trace w_seeding_cleanup_interrupted) = 1 /\
  count (is_cleanup PythonExecAgent) (trace w_seeding_cleanup_interrupted) = 0.
Proof.
  split; [repeat split; reflexivity|].
  split; [right; left; exists "10 columns, 840 rows"; repeat split; reflexivity|].
  repeat split; reflexivity.
Qed.

(** ** C10: an interrupt while a question is being answered *)

(** C10, as amended.  A [KeyboardInterrupt] raised by the [task()] call of
    a turn is not an [Exception], so the handler of the turn lets it
    through: the loop ends there, no retry message is printed and the rest
    of the input is not read.  And whenever the loop of a run ends with a
    [KeyboardInterrupt], what follows is the teardown and the outer handler
    only.  The file agent is cleaned up once; the code-execution agent is
    cleaned up once provided the [cleanup()] of the file agent is not
    interrupted; and provided no [cleanup()] raises anything but an
    [Exception] or a [KeyboardInterrupt], the outer handler prints the
    graceful message last and the status is 0. *)
Theorem interrupt_during_task (w : world) :
  (forall line rest st,
     exit_read (Returns line) = false ->
     data_analysis_agent st = PyAgent PythonExecAgent ->
     agent_task w PythonExecAgent (strip line) (history st ++ question_events line)
       = Raises KeyboardInterrupt ->
     task_handler KeyboardInterrupt = None /\
     interactive_loop w (Returns line :: rest) st =
       (Raises KeyboardInterrupt,
        extend st (question_events line ++
                   [Task PythonExecAgent (strip line) (Raises KeyboardInterrupt)]))) /\
  (forall out,
     seeded w out ->
     fst (interactive_loop w (stdin w) (st_both (hist_seeded w out)))
       = Raises KeyboardInterrupt ->
     exists evs tevs,
       trace w = hist_seeded w out ++ evs ++ tevs /\
       forallb session_event evs = true /\
       forallb closing_event tevs = true /\
       count (is_cleanup FileAccessAgent) (trace w) = 1 /\
       (cleanup_not_interrupted w FileAccessAgent ->
        count (is_cleanup PythonExecAgent) (trace w) = 1) /\
       (cleanup_no_exit w ->
        status w = 0%Z /\
        exists cevs,
          tevs = cevs ++ [Print msg_interrupted] /\
          forallb cleanup_event cevs = true)).
Proof.
  split.
  - intros line rest st H Ha Ht. split; [reflexivity|].
    pose proof (interactive_loop_question w line rest st PythonExecAgent H Ha) as E.
    cbv zeta in E. rewrite Ht in E. cbn [is_Exception answer_events] in E.
    rewrite app_nil_r in E. exact E.
  - intros out Hs Hk.
    pose proof Hs as ((Hi & He & _) & _).
    pose proof (agents_session_seeded w out Hs) as E.
    destruct (quiet_interactive_loop w (stdin w) (st_both (hist_seeded w out)))
      as (evs & Ev & Fs).
    destruct (interactive_loop w (stdin w) _) as [r s1].
    cbn [fst snd] in Hk, Ev. subst r s1.
    change (extend (st_both (hist_seeded w out)) evs)
      with (st_both (hist_seeded w out ++ evs)) in E.
    destruct (run_with_both_agents w _ _ Hi He E)
      as (rc & cevs & Ht & Hst & Fc & Hcf & Hcp & Hne & _).
    exists evs, (cevs ++ outer_events (finally_result (Raises KeyboardInterrupt) rc)).
    rewrite Ht, Hst, <- !app_assoc.
    pose proof (closing_events cevs (finally_result (Raises KeyboardInterrupt) rc) Fc)
      as Fx.
    destruct (outer_events_no_cleanup FileAccessAgent
                (finally_result (Raises KeyboardInterrupt) rc)) as [Of _].
    destruct (outer_events_no_cleanup PythonExecAgent
                (finally_result (Raises KeyboardInterrupt) rc)) as [Op _].
    split; [reflexivity|]. split; [exact Fs|]. split; [exact Fx|].
    rewrite !count_app.
    rewrite !(count_zero_of _ _ _ (session_event_not_cleanup _) Fs).
    rewrite Of, Op, Hcf.
    assert (Hh : count (is_cleanup FileAccessAgent) (hist_seeded w out) = 0 /\
                 count (is_cleanup PythonExecAgent) (hist_seeded w out) = 0)
      by (unfold_hists; unfold setup_events; split; reflexivity).
    destruct Hh as [H1 H2]. rewrite H1, H2.
    split; [reflexivity|].
    split; [intros Hn; rewrite (Hcp Hn); reflexivity|].
    intros Hn.
    assert (Hr : finally_result (Raises KeyboardInterrupt) rc = Raises KeyboardInterrupt)
      by (destruct (Hne Hn) as [-> | ->]; reflexivity).
    rewrite Hr. split; [reflexivity|].
    exists cevs. split; [reflexivity|exact Fc].
Qed.

Lemma interrupt_during_task_witness :
  seeded w_task_interrupted "10 columns, 840 rows" /\
  cleanup_benign w_task_interrupted /\
  cleanup_no_exit w_task_interrupted /\
  count (is_cleanup FileAccessAgent) (trace w_task_interrupted) = 1 /\
  count (is_cleanup PythonExecAgent) (trace w_task_interrupted) = 1 /\
  count is_input (trace w_task_interrupted) = 1 /\
  status w_task_interrupted = 0%Z.
Proof.
  assert (Hs : seeded w_task_interrupted "10 columns, 840 rows")
    by (repeat split; reflexivity).
  assert (Hb : cleanup_benign w_task_interrupted) by (intros a h; exact I).
  assert (Hx : cleanup_no_exit w_task_interrupted)
    by (intros a h e E; discriminate E).
  destruct (interrupt_during_task w_task_interrupted) as [Hturn Hrun].
  destruct (Hturn "How many rows?" [Returns "exit"]
              (st_both (hist_seeded w_task_interrupted "10 columns, 840 rows"))
              eq_refl eq_refl eq_refl) as [_ Hloop].
  assert (Hk : fst (interactive_loop w_task_interrupted (stdin w_task_interrupted)
                      (st_both (hist_seeded w_task_interrupted "10 columns, 840 rows")))
               = Raises KeyboardInterrupt)
    by (change (stdin w_task_interrupted)
          with [Returns "How many rows?"; Returns "exit"]; now rewrite Hloop).
  destruct (Hrun _ Hs Hk) as (evs & tevs & _ & _ & _ & Hcf & Hcp & Hst).
  split; [exact Hs|]. split; [exact Hb|]. split; [exact Hx|].
  split; [exact Hcf|]. split; [exact (Hcp (Hb FileAccessAgent))|].
  split; [reflexivity|exact (proj1 (Hst Hx))].
Defined.

(** C10 as stated fails: the user interrupts the answer to the first
    question and then the cleanup of the file agent as well.  The loop ends
    with the interrupt, the code-execution agent was constructed and is
    never cleaned up. *)
Lemma interrupt_then_cleanup_skipped :
  seeded w_task_cleanup_interrupted "10 columns, 840 rows" /\
  fst (interactive_loop w_task_cleanup_interrupted (stdin w_task_cleanup_interrupted)
         (st_both (hist_seeded w_task_cleanup_interrupted "10 columns, 840 rows")))
    = Raises KeyboardInterrupt /\
  In (Task PythonExecAgent "How many rows?" (Raises KeyboardInterrupt))
     (trace w_task_cleanup_interrupted) /\
  count (is_constructed PythonExecAgent) (trace w_task_cleanup_interrupted) = 1 /\
  count (is_cleanup PythonExecAgent) (trace w_task_cleanup_interrupted) = 0.
Proof.
  split; [repeat split; reflexivity|].
  split; [reflexivity|]. split; [vm_compute; tauto|]. split; reflexivity.
Qed.

(** ** C5: the exit status *)

Lemma run_outermost (w : world) :
  import_agents w = Returns tt ->
  run w =
  (outer_status (outermost w),
   history (snd (main_body w (extend initial [Import (Returns tt)]))) ++
   outer_events (outermost w)).
Proof.
  intros Hi. unfold run, outermost.
  assert (E : script w initial =
              try_except (main_body w) outer_handler (extend initial [Import (Returns tt)])).
  { cbv beta iota zeta delta
      [script main py_import import_handler bind ret raise emit lift try_except].
    rewrite Hi. reflexivity. }
  rewrite E, outer_handler_result.
  destruct (fst (main_body w _)) as [u|e]; [reflexivity|]. destruct e; reflexivity.
Qed.

(** C5.  The status is 1 when the import of the agent modules raises, and
    when the data file is missing.  Otherwise it follows from what reaches
    the [except] clauses of [main]: 0 when the outer [try] body completes,
    which is the case when the loop is left by [break] and no cleanup is
    interrupted; 0 with the graceful message printed last when a
    [KeyboardInterrupt] reaches them; 1 with the error logged last when an
    [Exception] does. *)
Theorem exit_status_table :
  (forall w e,
     import_agents w = Raises e -> is_Exception e = true -> status w = 1%Z) /\
  (forall w,
     import_agents w = Returns tt -> os_path_exists w (csv_path w) = false ->
     status w = 1%Z) /\
  (forall w,
     import_agents w = Returns tt -> outermost w = Returns tt -> status w = 0%Z) /\
  (forall w out,
     seeded w out -> cleanup_benign w ->
     fst (interactive_loop w (stdin w) (st_both (hist_seeded w out))) = Returns tt ->
     outermost w = Returns tt /\ status w = 0%Z) /\
  (forall w,
     import_agents w = Returns tt -> outermost w = Raises KeyboardInterrupt ->
     status w = 0%Z /\ exists pre, trace w = pre ++ [Print msg_interrupted]) /\
  (forall w e,
     import_agents w = Returns tt -> outermost w = Raises e -> is_Exception e = true ->
     status w = 1%Z /\
     exists pre, trace w = pre ++ [Log ERROR msg_unexpected; LogException e]).
Proof.
  repeat match goal with |- _ /\ _ => split end.
  - intros w e Hi He. unfold status. rewrite (script_import_raises w e Hi).
    destruct e; try discriminate He; reflexivity.
  - intros w Hi He. unfold status. now rewrite (script_file_missing w Hi He).
  - intros w Hi Ho. unfold status. now rewrite (run_outermost w Hi), Ho.
  - intros w out Hs Hb Hl.
    pose proof Hs as ((Hi & He & _) & _).
    assert (Ho : outermost w = Returns tt).
    { unfold outermost.
      assert (E : main_body w (extend initial [Import (Returns tt)]) =
                  try_finally (agents_session w) (cleanup_block w) (st_setup w)).
      { cbv beta iota zeta delta
          [main_body path_exists bind ret raise emit lift
           print logging_info logging_error sys_exit
           set_file_ingestion_agent set_data_analysis_agent extend initial negb].
        cbn [app history file_ingestion_agent data_analysis_agent].
        rewrite He. reflexivity. }
      rewrite E, (try_finally_benign w _ _ Hb), (agents_session_seeded w out Hs).
      exact Hl. }
    split; [exact Ho|]. unfold status. now rewrite (run_outermost w Hi), Ho.
  - intros w Hi Ho. unfold status, trace. rewrite (run_outermost w Hi), Ho.
    split; [reflexivity|]. eexists. reflexivity.
  - intros w e Hi Ho He. unfold status, trace. rewrite (run_outermost w Hi), Ho.
    destruct e; try discriminate He; (split; [reflexivity|]; eexists; reflexivity).
Qed.

Lemma exit_status_table_witness :
  status w_import_fails = 1%Z /\
  status w_file_missing = 1%Z /\
  status (friendly [Returns "exit"]) = 0%Z /\
  status w_describe_interrupted = 0%Z /\
  status w_add_context_fails = 1%Z.
Proof.
  destruct exit_status_table as (Himp & Hmiss & _ & Hloop & Hint & Herr).
  split; [exact (Himp w_import_fails ImportError eq_refl eq_refl)|].
  split; [exact (Hmiss w_file_missing eq_refl eq_refl)|].
  split.
  { assert (Hs : seeded (friendly [Returns "exit"]) "10 columns, 840 rows")
      by (repeat split; reflexivity).
    assert (Hb : cleanup_benign (friendly [Returns "exit"])) by (intros a h; exact I).
    exact (proj2 (Hloop _ _ Hs Hb eq_refl)). }
  split; [exact (proj1 (Hint w_describe_interrupted eq_refl eq_refl))|].
  exact (proj1 (Herr w_add_context_fails (OtherException "APIError")
                  eq_refl eq_refl eq_refl)).
Defined.

(** ** C3: leaving the loop *)

(** The lines the loop stops on: the word [exit] in any casing, with any
    whitespace around it, and no other. *)
Lemma exit_read_line (line : string) :
  exit_read (Returns line) = true <->
  exists pre word post,
    blank pre /\ blank post /\ is_exit_word word = true /\
    line = (pre ++ word ++ post)%string.
Proof.
  cbn [exit_read]. split.
  - rewrite exit_word_lower. intros Hw.
    destruct (strip_decompose line) as (pre & post & Hpre & Hpost & E).
    now exists pre, (strip line), post.
  - intros (pre & word & post & Hpre & Hpost & Hw & ->).
    now rewrite (exit_word_strip pre word post Hpre Hpost Hw), exit_word_lower.
Qed.

Lemma loop_body_not_break (w : world) (r : outcome string) (st : state) :
  exit_read r = false -> fst (loop_body w r st) <> Returns Break.
Proof.
  intros H. destruct r as [line|e].
  - cbn [exit_read] in H. unfold_script. rewrite H.
    destruct (data_analysis_agent st) as [|a]; unfold_script; [discriminate|].
    destruct (agent_task w a (strip line) _) as [out|[]]; discriminate.
  - now rewrite (loop_body_read_raises w e st H).
Qed.

Lemma no_input_no_task_after_exit (tr : list event) :
  count is_input tr = 0 -> no_task_after_exit tr = true.
Proof.
  induction tr as [|e tr IH]; [reflexivity|].
  destruct e; cbn; try exact IH. discriminate.
Qed.

Lemma count_skip (p : event -> bool) (e : event) (tr : list event) :
  p e = false -> count p (e :: tr) = count p tr.
Proof. intros H. unfold count. cbn [filter]. now rewrite H. Qed.

Lemma loop_no_task_after_exit (w : world) (ins : list (outcome string)) :
  forall st post,
    data_analysis_agent st = PyAgent PythonExecAgent ->
    count (is_task PythonExecAgent) post = 0 ->
    no_task_after_exit post = true ->
    exists evs,
      snd (interactive_loop w ins st) = extend st evs /\
      no_task_after_exit (evs ++ post) = true.
Proof.
  induction ins as [|r rest IH]; intros st post Ha Hp Hn.
  - rewrite interactive_loop_eof. eexists; split; [reflexivity|].
    cbn [app no_task_after_exit exit_read is_EOFError orb].
    now rewrite count_skip, Hp.
  - destruct (exit_read r) eqn:Hx.
    + rewrite (interactive_loop_break w r rest st Hx).
      eexists; split; [reflexivity|]. cbn [app no_task_after_exit].
      now rewrite Hx, count_skip, Hp.
    + destruct r as [line|e].
      * pose proof (interactive_loop_question w line rest st PythonExecAgent Hx Ha) as E.
        cbv zeta in E. rewrite E. clear E.
        set (o := agent_task w PythonExecAgent (strip line) _).
        set (st' := extend st _).
        assert (Ha' : data_analysis_agent st' = PyAgent PythonExecAgent) by exact Ha.
        destruct (IH st' post Ha' Hp Hn) as (evs & Ev & Hev).
        assert (Hscan : forall tl,
                  no_task_after_exit
                    ((question_events line ++
                      [Task PythonExecAgent (strip line) o] ++ answer_events o) ++ tl) =
                  no_task_after_exit tl).
        { intros tl. unfold question_events. cbn [app no_task_after_exit].
          rewrite Hx. destruct o as [out|[]]; reflexivity. }
        destruct o as [out|e] eqn:Ho; [|destruct (is_Exception e) eqn:He].
        -- rewrite Ev. subst st'. rewrite extend_extend.
           eexists; split; [reflexivity|]. now rewrite <- app_assoc, Hscan.
        -- rewrite Ev. subst st'. rewrite extend_extend.
           eexists; split; [reflexivity|]. now rewrite <- app_assoc, Hscan.
        -- cbn [snd]. subst st'. eexists; split; [reflexivity|]. now rewrite Hscan.
      * rewrite (interactive_loop_read_raises w e rest st Hx).
        eexists; split; [reflexivity|]. cbn [app no_task_after_exit]. now rewrite Hx.
Qed.

Lemma outer_events_counts (r : outcome unit) :
  count (is_task PythonExecAgent) (outer_events r) = 0 /\
  count is_input (outer_events r) = 0.
Proof. destruct r as [u|[]]; split; reflexivity. Qed.

Lemma seeded_no_task_after_exit (w : world) (out : string) :
  seeded w out -> no_task_after_exit (trace w) = true.
Proof.
  intros Hs. pose proof Hs as ((Hi & He & _) & _).
  unfold trace. rewrite (run_file_found w Hi He). cbn [snd].
  set (r := fst _). clearbody r.
  unfold try_finally. rewrite (agents_session_seeded w out Hs).
  pose proof (loop_no_task_after_exit w (stdin w) (st_both (hist_seeded w out))) as L.
  destruct (interactive_loop w (stdin w) _) as [r1 s1]. cbn [snd] in L.
  destruct (quiet_cleanup_block w s1) as (cevs & Ec & Ft).
  destruct (teardown_counts cevs Ft) as (_ & Htk & _ & Hin).
  destruct (outer_events_counts r) as [Ot Oi].
  destruct (L (cevs ++ outer_events r) eq_refl) as (evs & Ev & Hev).
  { now rewrite count_app, Htk, Ot. }
  { apply no_input_no_task_after_exit. now rewrite count_app, Hin, Oi. }
  assert (Hh : history (snd (let (r0, st') := cleanup_block w s1 in
                             match r0 with
                             | Returns _ => (r1, st')
                             | Raises e => (Raises e, st')
                             end)) = history s1 ++ cevs).
  { destruct (cleanup_block w s1) as [[u|e] s2]; cbn [snd] in Ec |- *; now subst s2. }
  rewrite Hh, Ev. cbn [extend history st_both]. rewrite <- !app_assoc.
  unfold_hists. unfold setup_events. cbn [app no_task_after_exit]. exact Hev.
Qed.

(** C3.  A turn leaves the loop by [break] exactly when its read is one of:
    end of input, an interrupt during the read, a line equal to [exit] once
    stripped and lowercased.  On such a read the loop returns at once,
    having printed the invitation and the farewell and called no agent, and
    what remains of the input is not read; the end of the input does the
    same.  The lines that are such a read are exactly the word [exit] in any
    of its casings, with any whitespace characters, ASCII or not, before and
    after it.  And in every run that enters the loop, no [task()] call on
    the code-execution agent comes after such a read. *)
Theorem loop_exit_condition (w : world) :
  (forall r st,
     fst (loop_body w r st) = Returns Break <-> exit_read r = true) /\
  (forall r rest st,
     exit_read r = true ->
     interactive_loop w (r :: rest) st =
     (Returns tt,
      extend st [Print msg_type_question; Input input_prompt r; Print (farewell r)])) /\
  (forall st,
     interactive_loop w [] st =
     (Returns tt,
      extend st [Print msg_type_question; Input input_prompt (Raises EOFError);
                 Print (nl ++ msg_exiting)])) /\
  (forall line,
     exit_read (Returns line) = true <->
     exists pre word post,
       blank pre /\ blank post /\ is_exit_word word = true /\
       line = (pre ++ word ++ post)%string) /\
  (forall e, exit_read (Raises e) = true <-> e = EOFError \/ e = KeyboardInterrupt) /\
  (forall out, seeded w out -> no_task_after_exit (trace w) = true).
Proof.
  repeat match goal with |- _ /\ _ => split end.
  - intros r st. split.
    + intros Hb. destruct (exit_read r) eqn:Hx; [reflexivity|].
      now destruct (loop_body_not_break w r st Hx).
    + intros Hx. now rewrite (loop_body_break w r st Hx).
  - intros r rest st Hx. now apply interactive_loop_break.
  - intros st. apply interactive_loop_eof.
  - apply exit_read_line.
  - intros e. split.
    + destruct e; cbn; intros H; try discriminate H; auto.
    + now intros [->| ->].
  - intros out. apply seeded_no_task_after_exit.
Qed.

Lemma loop_exit_condition_witness :
  exit_read (Returns (nbsp ++ "eXiT" ++ " " ++ ideographic_space)%string) = true /\
  exit_read (Raises KeyboardInterrupt) = true /\
  exit_read (Returns "exit now") = false /\
  fst (loop_body (friendly [])
         (Returns (nbsp ++ "eXiT" ++ " " ++ ideographic_space)%string) st_agents)
    = Returns Break /\
  no_task_after_exit
    (trace (friendly [Returns "How many rows?"; Returns "Exit"; Returns "more?"])) = true /\
  count (is_task PythonExecAgent)
    (trace (friendly [Returns "How many rows?"; Returns "Exit"; Returns "more?"])) = 1.
Proof.
  destruct (loop_exit_condition (friendly [])) as (Hiff & _ & _ & Hline & _).
  destruct (loop_exit_condition
              (friendly [Returns "How many rows?"; Returns "Exit"; Returns "more?"]))
    as (_ & _ & _ & _ & _ & Hrun).
  assert (Hx : exit_read (Returns (nbsp ++ "eXiT" ++ " " ++ ideographic_space)%string) = true).
  { apply Hline. exists nbsp, "eXiT", (" " ++ ideographic_space)%string.
    repeat split; apply blank_lstrip; reflexivity. }
  split; [exact Hx|]. split; [reflexivity|]. split; [reflexivity|].
  split; [exact (proj2 (Hiff _ st_agents) Hx)|].
  split; [|reflexivity].
  apply (Hrun "10 columns, 840 rows"). repeat split; reflexivity.
Defined.

(** ** Failing constructors *)

Lemma agents_session_file_constructor_fails (w : world) (e : exn) :
  agent_new w FileAccessAgent (setup_events w true) = Raises e ->
  agents_session w (st_setup w) =
  (Raises e,
   mkState (setup_events w true ++ [Construct FileAccessAgent [] (Raises e)])
           PyNone PyNone).
Proof.
  intros Hf. unfold st_setup. unfold_script. now rewrite Hf.
Qed.

Lemma agents_session_exec_constructor_fails (w : world) (e : exn) :
  agent_new w FileAccessAgent (setup_events w true) = Returns tt ->
  agent_new w PythonExecAgent (hist_file_agent w) = Raises e ->
  agents_session w (st_setup w) =
  (Raises e,
   mkState (hist_file_agent w ++ [Construct PythonExecAgent python_exec_kwargs (Raises e)])
           (PyAgent FileAccessAgent) PyNone).
Proof.
  intros Hf Hp. unfold st_setup. unfold_hists. unfold_script. rewrite Hf.
  unfold_script. rewrite <- ?app_assoc; cbn [app]. rewrite Hp.
  unfold_script. rewrite <- ?app_assoc; cbn [app]. reflexivity.
Qed.

(** X1.  When the constructor of the file agent raises an [Exception], the
    other constructor is never called, no agent method is called and no
    [cleanup()] either: the run is the setup, the failed constructor call
    and the log of the outer handler, and the status is 1. *)
Theorem file_constructor_failure (w : world) (e : exn) :
  import_agents w = Returns tt ->
  os_path_exists w (csv_path w) = true ->
  agent_new w FileAccessAgent (setup_events w true) = Raises e ->
  is_Exception e = true ->
  trace w =
    [Import (Returns tt); Print msg_setup; Print prompt; Log INFO msg_setting_up;
     PathExists (csv_path w) true;
     Construct FileAccessAgent [] (Raises e);
     Log ERROR msg_unexpected; LogException e] /\
  status w = 1%Z.
Proof.
  intros Hi He Hf Hx. unfold trace, status. rewrite (run_file_found w Hi He).
  unfold try_finally. rewrite (agents_session_file_constructor_fails w e Hf).
  unfold_script. destruct e; try discriminate Hx; split; reflexivity.
Qed.

Lemma file_constructor_failure_witness :
  status w_file_constructor_fails = 1%Z /\
  count is_construct_call (trace w_file_constructor_fails) = 1 /\
  count (is_cleanup FileAccessAgent) (trace w_file_constructor_fails) = 0.
Proof.
  destruct (file_constructor_failure w_file_constructor_fails
              (OtherException "OpenAIError") eq_refl eq_refl eq_refl eq_refl)
    as [Ht Hs].
  split; [exact Hs|]. rewrite Ht. split; reflexivity.
Defined.

(** X2.  When the file agent is constructed and the constructor of the
    code-execution agent raises an [Exception], and the cleanup is not
    interrupted: no agent method but [cleanup()] is called, the file agent
    is cleaned up exactly once and the code-execution agent never, then the
    outer handler logs the error, and the status is 1. *)
Theorem exec_constructor_failure (w : world) (e : exn) :
  import_agents w = Returns tt ->
  os_path_exists w (csv_path w) = true ->
  agent_new w FileAccessAgent (setup_events w true) = Returns tt ->
  agent_new w PythonExecAgent (hist_file_agent w) = Raises e ->
  is_Exception e = true ->
  cleanup_benign w ->
  exists cevs,
    trace w =
      [Import (Returns tt); Print msg_setup; Print prompt; Log INFO msg_setting_up;
       PathExists (csv_path w) true;
       Construct FileAccessAgent [] (Returns tt);
       Construct PythonExecAgent python_exec_kwargs (Raises e)]
      ++ cevs ++ [Log ERROR msg_unexpected; LogException e] /\
    forallb teardown_event cevs = true /\
    count (is_cleanup FileAccessAgent) cevs = 1 /\
    count (is_cleanup PythonExecAgent) cevs = 0 /\
    status w = 1%Z.
Proof.
  intros Hi He Hf Hp Hx Hb.
  pose proof (agents_session_exec_constructor_fails w e Hf Hp) as E.
  destruct (run_after_session w _ _ Hi He Hb E) as (cevs & Ft & Hc & Hr).
  exists cevs. unfold trace, status. rewrite Hr.
  cbn [fst snd history]. unfold_hists. unfold setup_events. cbn [app].
  split; [destruct e; try discriminate Hx; reflexivity|].
  split; [exact Ft|].
  split; [exact (Hc FileAccessAgent)|]. split; [exact (Hc PythonExecAgent)|].
  destruct e; try discriminate Hx; reflexivity.
Qed.

Lemma exec_constructor_failure_witness :
  cleanup_benign w_exec_constructor_fails /\
  status w_exec_constructor_fails = 1%Z /\
  exists cevs,
    count (is_cleanup FileAccessAgent) cevs = 1 /\
    count (is_cleanup PythonExecAgent) cevs = 0 /\
    trace w_exec_constructor_fails =
      setup_events w_exec_constructor_fails true ++
      [Construct FileAccessAgent [] (Returns tt);
       Construct PythonExecAgent python_exec_kwargs
         (Raises (OtherException "DockerException"))]
      ++ cevs ++
      [Log ERROR msg_unexpected; LogException (OtherException "DockerException")].
Proof.
  assert (Hb : cleanup_benign w_exec_constructor_fails) by (intros a h; exact I).
  destruct (exec_constructor_failure w_exec_constructor_fails
              (OtherException "DockerException")
              eq_refl eq_refl eq_refl eq_refl eq_refl Hb)
    as (cevs & Ht & _ & Hcf & Hcp & Hs).
  split; [exact Hb|]. split; [exact Hs|].
  exists cevs. split; [exact Hcf|]. split; [exact Hcp|exact Ht].
Defined.

(** ** No question before the setup is complete *)

Lemma trace_counts_after_session (w : world) (r : outcome unit) (s1 : state) :
  import_agents w = Returns tt ->
  os_path_exists w (csv_path w) = true ->
  agents_session w (st_setup w) = (r, s1) ->
  count is_input (trace w) = count is_input (history s1) /\
  count (is_task PythonExecAgent) (trace w) = count (is_task PythonExecAgent) (history s1).
Proof.
  intros Hi He Hs.
  destruct (trace_file_found w Hi He) as (evs & cevs & Eh & Ft & Ht).
  rewrite Hs in Eh. cbn [snd] in Eh.
  rewrite Ht, app_assoc, <- Eh, !count_app.
  destruct (teardown_counts cevs Ft) as (_ & Htk & _ & Hin).
  destruct (outer_events_counts
              (fst (try_finally (agents_session w) (cleanup_block w) (st_setup w))))
    as [Ot Oi].
  rewrite Htk, Hin, Ot, Oi. split; lia.
Qed.

Lemma seeded_of_reads (w : world) :
  count is_input (trace w) <> 0 \/ count (is_task PythonExecAgent) (trace w) <> 0 ->
  exists out, seeded w out.
Proof.
  intros H.
  destruct (import_agents w) as [[]|e] eqn:Hi.
  2:{ exfalso. unfold trace in H. rewrite (script_import_raises w e Hi) in H.
      destruct (is_ImportError e); now destruct H. }
  destruct (os_path_exists w (csv_path w)) eqn:He.
  2:{ exfalso. unfold trace in H. rewrite (script_file_missing w Hi He) in H.
      now destruct H. }
  assert (Hzero : forall r h fv dv,
            agents_session w (st_setup w) = (r, mkState h fv dv) ->
            count is_input h = 0 ->
            count (is_task PythonExecAgent) h = 0 ->
            False).
  { intros r h fv dv Hs Z1 Z2.
    destruct (trace_counts_after_session w r _ Hi He Hs) as [E1 E2].
    cbn [history] in E1, E2. rewrite E1, E2, Z1, Z2 in H. now destruct H. }
  destruct (agent_new w FileAccessAgent (setup_events w true)) as [[]|e] eqn:Hf.
  2:{ exfalso.
      exact (Hzero _ _ _ _ (agents_session_file_constructor_fails w e Hf)
               eq_refl eq_refl). }
  destruct (agent_new w PythonExecAgent (hist_file_agent w)) as [[]|e] eqn:Hp.
  2:{ exfalso.
      exact (Hzero _ _ _ _ (agents_session_exec_constructor_fails w e Hf Hp)
               eq_refl eq_refl). }
  assert (Hc : agents_constructed w) by (repeat split; assumption).
  destruct (agent_task w FileAccessAgent prompt (hist_agents w)) as [out|e] eqn:Ht.
  2:{ exfalso.
      eapply Hzero;
        [apply (agents_session_seeding_fails w e _ Hc); left;
         split; [exact Ht|reflexivity]
        |reflexivity|reflexivity]. }
  destruct (agent_add_context w PythonExecAgent prompt (hist_described w out))
    as [[]|e] eqn:Ha1.
  2:{ exfalso.
      eapply Hzero;
        [apply (agents_session_seeding_fails w e _ Hc); right; left; exists out;
         split; [exact Ht|split; [exact Ha1|reflexivity]]
        |reflexivity|reflexivity]. }
  destruct (agent_add_context w PythonExecAgent out (hist_context w out))
    as [[]|e] eqn:Ha2.
  2:{ exfalso.
      eapply Hzero;
        [apply (agents_session_seeding_fails w e _ Hc); right; right; exists out;
         split; [exact Ht|split; [exact Ha1|split; [exact Ha2|reflexivity]]]
        |reflexivity|reflexivity]. }
  exists out. repeat split; assumption.
Qed.

(** X3.  The console is read, and a question is passed to the
    code-execution agent, only in runs in which the modules were imported,
    the data file was found, both constructors returned, and the file
    description and both [add_context] calls returned. *)
Theorem reads_only_after_seeding (w : world) :
  count is_input (trace w) <> 0 \/ count (is_task PythonExecAgent) (trace w) <> 0 ->
  exists out, seeded w out.
Proof. apply seeded_of_reads. Qed.

Lemma reads_only_after_seeding_witness :
  count is_input (trace (friendly [Returns "How many rows?"])) = 2 /\
  exists out, seeded (friendly [Returns "How many rows?"]) out.
Proof.
  split; [reflexivity|].
  apply reads_only_after_seeding. left. discriminate.
Defined.

(** ** The lines the loop stops on *)

(** X4.  A turn leaves the loop on a line exactly when the line is the
    word [exit] in some casing with nothing but whitespace characters,
    ASCII or not, before and after it: [strip] removes whitespace from the
    two ends only, so text around the word, or whitespace inside it, makes
    the line a question. *)
Theorem exit_line_characterisation (w : world) (line : string) (st : state) :
  fst (loop_body w (Returns line) st) = Returns Break <->
  exists pre word post,
    blank pre /\ blank post /\
    is_exit_word word = true /\ line = (pre ++ word ++ post)%string.
Proof.
  rewrite <- exit_read_line. split.
  - intros Hb. destruct (exit_read (Returns line)) eqn:H; [reflexivity|].
    now destruct (loop_body_not_break w (Returns line) st H).
  - intros Hx. now rewrite (loop_body_break w _ st Hx).
Qed.

(** ** Questions, over a whole run *)

Lemma trace_seeded (w : world) (out : string) :
  seeded w out ->
  exists cevs r,
    forallb teardown_event cevs = true /\
    trace w =
      history (snd (interactive_loop w (stdin w) (st_both (hist_seeded w out))))
      ++ cevs ++ outer_events r.
Proof.
  intros Hs. pose proof Hs as ((Hi & He & _) & _).
  destruct (trace_file_found w Hi He) as (evs & cevs & Eh & Ft & Ht).
  rewrite (agents_session_seeded w out Hs) in Eh.
  exists cevs. eexists. split; [exact Ft|].
  rewrite Eh, <- app_assoc. exact Ht.
Qed.

Lemma loop_questions (w : world) (ins : list (outcome string)) :
  forall st,
    data_analysis_agent st = PyAgent PythonExecAgent ->
    exists evs,
      snd (interactive_loop w ins st) = extend st evs /\
      forallb stripped_question evs = true /\
      count (is_task PythonExecAgent) evs = count is_question_read evs.
Proof.
  induction ins as [|r rest IH]; intros st Ha.
  - rewrite interactive_loop_eof. eexists; split; [reflexivity|]. split; reflexivity.
  - destruct (exit_read r) eqn:Hx.
    + rewrite (interactive_loop_break w r rest st Hx).
      eexists; split; [reflexivity|]. split; [reflexivity|].
      destruct r as [line|e]; [|reflexivity].
      unfold count. cbn [filter is_task is_question_read]. now rewrite Hx.
    + destruct r as [line|e].
      * pose proof (interactive_loop_question w line rest st PythonExecAgent Hx Ha) as E.
        cbv zeta in E. rewrite E. clear E.
        set (o := agent_task w PythonExecAgent (strip line) _).
        set (tl := question_events line ++
                   [Task PythonExecAgent (strip line) o] ++ answer_events o).
        assert (Hturn : forallb stripped_question tl = true /\
                        count (is_task PythonExecAgent) tl = 1 /\
                        count is_question_read tl = 1).
        { cbn [exit_read] in Hx. subst tl. unfold question_events.
          rewrite !forallb_app, !count_app.
          cbn [forallb stripped_question].
          rewrite strip_idempotent, String.eqb_refl, Hx.
          unfold count. cbn [filter is_task is_question_read exit_read agent_eqb].
          rewrite Hx. destruct o as [out|[]]; repeat split; reflexivity. }
        destruct Hturn as (T1 & T2 & T3). clearbody tl.
        assert (Ha' : data_analysis_agent (extend st tl) = PyAgent PythonExecAgent)
          by exact Ha.
        destruct (IH (extend st tl) Ha') as (evs & Ev & Fs & Hc).
        destruct o as [out|e]; [|destruct (is_Exception e)].
        -- rewrite Ev, extend_extend.
           exists (tl ++ evs). split; [reflexivity|].
           rewrite forallb_app, !count_app, T1, T2, T3, Fs, Hc. now split.
        -- rewrite Ev, extend_extend.
           exists (tl ++ evs). split; [reflexivity|].
           rewrite forallb_app, !count_app, T1, T2, T3, Fs, Hc. now split.
        -- cbn [snd]. exists tl. split; [reflexivity|].
           rewrite T1, T2, T3. now split.
      * rewrite (interactive_loop_read_raises w e rest st Hx).
        eexists; split; [reflexivity|]. split; reflexivity.
Qed.

Lemma seeded_questions (w : world) (out : string) :
  seeded w out ->
  forallb stripped_question (trace w) = true /\
  count (is_task PythonExecAgent) (trace w) = count is_question_read (trace w).
Proof.
  intros Hs. destruct (trace_seeded w out Hs) as (cevs & r & Ft & Ht).
  destruct (loop_questions w (stdin w) (st_both (hist_seeded w out)) eq_refl)
    as (evs & Ev & Fs & Hc).
  rewrite Ht, Ev. cbn [extend history st_both].
  rewrite !forallb_app, !count_app, Fs, Hc.
  destruct (teardown_counts cevs Ft) as (_ & Htk & _ & Hin).
  assert (Fc : forallb stripped_question cevs = true).
  { rewrite forallb_forall in *. intros e He. specialize (Ft e He).
    destruct e; try discriminate Ft; reflexivity. }
  assert (Hq : count is_question_read cevs = 0).
  { apply (count_zero_of teardown_event); [|exact Ft].
    intros e; destruct e; cbn; congruence. }
  assert (Ho : forallb stripped_question (outer_events r) = true /\
               count (is_task PythonExecAgent) (outer_events r) = 0 /\
               count is_question_read (outer_events r) = 0)
    by (destruct r as [u|[]]; repeat split; reflexivity).
  destruct Ho as (O1 & O2 & O3).
  rewrite Fc, Htk, Hq, O1, O2, O3.
  unfold_hists. unfold setup_events. split; reflexivity.
Qed.

Lemma count_of_In (p : event -> bool) (e : event) (tr : list event) :
  In e tr -> p e = true -> count p tr <> 0.
Proof.
  unfold count. intros Hin Hp.
  assert (H : In e (filter p tr)) by (apply filter_In; auto).
  destruct (filter p tr); [destruct H|discriminate].
Qed.

Lemma count_le (p q : event -> bool) (tr : list event) :
  (forall e, p e = true -> q e = true) -> count p tr <= count q tr.
Proof.
  intros Hpq. unfold count. induction tr as [|e tr IH]; [auto|].
  cbn [filter]. destruct (p e) eqn:Hp.
  - rewrite (Hpq e Hp). cbn. lia.
  - destruct (q e); cbn; lia.
Qed.

(** X5.  Whatever the run, a question handed to the code-execution agent
    is its own stripped form, with no whitespace character, ASCII or not,
    left at either end, and it is never the word [exit] in any casing. *)
Theorem questions_are_stripped (w : world) (arg : string) (o : outcome string) :
  In (Task PythonExecAgent arg o) (trace w) ->
  strip arg = arg /\ trimmed arg /\ is_exit_word arg = false /\ lower arg <> "exit".
Proof.
  intros Hin.
  destruct (seeded_of_reads w) as (out & Hs).
  { right. exact (count_of_In _ _ _ Hin eq_refl). }
  destruct (seeded_questions w out Hs) as [Fs _].
  rewrite forallb_forall in Fs. specialize (Fs _ Hin).
  cbn [stripped_question] in Fs. apply andb_true_iff in Fs as [F1 F2].
  apply String.eqb_eq in F1.
  split; [exact F1|]. split; [rewrite <- F1; apply strip_trimmed|].
  rewrite <- exit_word_lower.
  split; [now destruct (lower arg =? "exit")|].
  apply String.eqb_neq. now destruct (lower arg =? "exit").
Qed.

Lemma questions_are_stripped_witness :
  In (Task PythonExecAgent "How many rows?" (Returns "42"))
     (trace (friendly [Returns (nbsp ++ " How many rows? " ++ ideographic_space)%string;
                       Returns "exit"])) /\
  strip "How many rows?" = "How many rows?" /\
  trimmed "How many rows?" /\
  is_exit_word "How many rows?" = false /\
  lower "How many rows?" <> "exit".
Proof.
  assert (Hin : In (Task PythonExecAgent "How many rows?" (Returns "42"))
                   (trace (friendly [Returns (nbsp ++ " How many rows? " ++
                                              ideographic_space)%string;
                                     Returns "exit"])))
    by (vm_compute; tauto).
  split; [exact Hin|].
  exact (questions_are_stripped _ _ _ Hin).
Defined.

(** X6.  Whatever the run, the code-execution agent gets exactly one
    [task()] call per line read from the console that is a question: none
    is skipped, none is asked twice, and no call is made without a line
    read. *)
Theorem one_task_per_question (w : world) :
  count (is_task PythonExecAgent) (trace w) = count is_question_read (trace w).
Proof.
  destruct (Nat.eq_dec (count is_input (trace w)) 0) as [Zi|Ni].
  - destruct (Nat.eq_dec (count (is_task PythonExecAgent) (trace w)) 0) as [Zt|Nt].
    + assert (Hle : count is_question_read (trace w) <= count is_input (trace w)).
      { apply count_le. intros e; destruct e; cbn; congruence. }
      lia.
    + destruct (seeded_of_reads w (or_intror Nt)) as (out & Hs).
      exact (proj2 (seeded_questions w out Hs)).
  - destruct (seeded_of_reads w (or_introl Ni)) as (out & Hs).
    exact (proj2 (seeded_questions w out Hs)).
Qed.

(** ** The path of the data file *)

Lemma append_cons_not_empty (s : string) (c : ascii) (t : string) :
  ((s ++ String c t) =? EmptyString) = false.
Proof. destruct s; reflexivity. Qed.

Lemma ends_with_sep_app (s : string) (c : ascii) (t : string) :
  ends_with_sep (s ++ String c t) = ends_with_sep (String c t).
Proof.
  induction s as [|d s IH]; [reflexivity|].
  cbn [append]. rewrite <- IH. destruct s; reflexivity.
Qed.

Lemma join_step_word (path : string) (c : ascii) (t : string) :
  Ascii.eqb c "/"%char = false ->
  join_step path (String c t) = (path ++ join_sep path ++ String c t)%string.
Proof.
  intros Hc. unfold join_step, join_sep. cbn [starts_with_sep]. rewrite Hc.
  destruct ((path =? EmptyString) || ends_with_sep path); reflexivity.
Qed.

Lemma join_sep_app (p : string) (c : ascii) (t : string) :
  ends_with_sep (String c t) = false ->
  join_sep (p ++ String c t) = "/".
Proof.
  intros Hc. unfold join_sep.
  now rewrite append_cons_not_empty, ends_with_sep_app, Hc.
Qed.

(** X7.  The file whose existence is checked is [resources/data/
    traffic_accidents.csv] under the project root, with exactly one
    separator at the junction: a root that ends with a separator (the file
    system root) gets none added, nor does the empty root, and every other
    root gets one. *)
Theorem csv_path_shape (w : world) :
  csv_path w =
  (project_root w ++ join_sep (project_root w) ++
   "resources/data/traffic_accidents.csv")%string.
Proof.
  unfold csv_path, os_path_join. cbn [fold_left].
  set (root := project_root w). set (sep := join_sep root).
  assert (E1 : join_step root "resources" = ((root ++ sep) ++ "resources")%string).
  { subst sep. rewrite join_step_word by reflexivity. now rewrite append_assoc. }
  rewrite E1.
  assert (E2 : join_step ((root ++ sep) ++ "resources") "data" =
               (((root ++ sep) ++ "resources/") ++ "data")%string).
  { rewrite join_step_word by reflexivity.
    rewrite join_sep_app by reflexivity.
    now rewrite !append_assoc. }
  rewrite E2.
  rewrite join_step_word by reflexivity.
  rewrite join_sep_app by reflexivity.
  now rewrite !append_assoc.
Qed.

(** ** The import guard *)

(** X8.  When importing the agent modules raises, [main] never runs:
    nothing is printed and no agent is constructed.  An [ImportError] is
    logged and the status is 1; any other exception is not handled by the
    guard: nothing is logged and the exception ends the process. *)
Theorem import_guard (w : world) (e : exn) :
  import_agents w = Raises e ->
  count is_construct_call (trace w) = 0 /\
  (forall s, count (is_print_of s) (trace w) = 0) /\
  (is_ImportError e = true ->
   trace w = [Import (Raises e); Log ERROR msg_import_failed; LogException e] /\
   status w = 1%Z) /\
  (is_ImportError e = false ->
   trace w = [Import (Raises e)] /\
   status w = match e with
              | SystemExit code => code
              | KeyboardInterrupt => 130%Z
              | _ => 1%Z
              end).
Proof.
  intros Hi. unfold trace, status. rewrite (script_import_raises w e Hi).
  cbn [fst snd]. destruct e; cbn [is_ImportError];
    repeat split; try reflexivity; try discriminate; intros H; discriminate H.
Qed.

Lemma import_guard_witness :
  import_agents w_import_syntax_error = Raises (OtherException "SyntaxError") /\
  trace w_import_syntax_error = [Import (Raises (OtherException "SyntaxError"))] /\
  status w_import_syntax_error = 1%Z.
Proof.
  destruct (import_guard w_import_syntax_error (OtherException "SyntaxError") eq_refl)
    as (_ & _ & _ & Hother).
  destruct (Hother eq_refl) as [Ht Hs].
  split; [reflexivity|]. split; [exact Ht|exact Hs].
Defined.

(** ** A console read that fails *)

(** X9.  An exception of [input()] other than [EOFError] and
    [KeyboardInterrupt] is not handled in the loop: the turn prints no
    farewell, calls no agent and the loop ends with that exception, at any
    turn.  And whenever the loop of a run ends with an [Exception], and no
    cleanup is interrupted, the teardown runs with one [cleanup()] per
    agent, the outer handler logs the error last, and the status is 1. *)
Theorem read_error_is_fatal (w : world) :
  (forall e rest st,
     exit_read (Raises e) = false ->
     interactive_loop w (Raises e :: rest) st =
     (Raises e, extend st [Print msg_type_question; Input input_prompt (Raises e)])) /\
  (forall out e,
     seeded w out ->
     cleanup_benign w ->
     fst (interactive_loop w (stdin w) (st_both (hist_seeded w out))) = Raises e ->
     is_Exception e = true ->
     exists evs cevs,
       trace w =
         hist_seeded w out ++ evs ++ cevs ++ [Log ERROR msg_unexpected; LogException e] /\
       forallb session_event evs = true /\
       forallb teardown_event cevs = true /\
       count (is_cleanup FileAccessAgent) (trace w) = 1 /\
       count (is_cleanup PythonExecAgent) (trace w) = 1 /\
       status w = 1%Z).
Proof.
  split.
  - intros e rest st Hx. now apply interactive_loop_read_raises.
  - intros out e Hs Hb Hl He.
    pose proof Hs as ((Hi & Hf & _) & _).
    pose proof (agents_session_seeded w out Hs) as E.
    destruct (quiet_interactive_loop w (stdin w) (st_both (hist_seeded w out)))
      as (evs & Ev & Fs).
    destruct (interactive_loop w (stdin w) _) as [r s1].
    cbn [fst snd] in Hl, Ev. subst r s1.
    destruct (run_after_session w _ _ Hi Hf Hb E) as (cevs & Ft & Hc & Hr).
    exists evs, cevs. unfold trace, status. rewrite Hr.
    assert (Ho : outer_events (Raises e) = [Log ERROR msg_unexpected; LogException e])
      by (destruct e; try discriminate He; reflexivity).
    assert (Hst : outer_status (Raises e) = 1%Z)
      by (destruct e; try discriminate He; reflexivity).
    rewrite Ho, Hst. cbn [fst snd extend st_both history].
    rewrite <- !app_assoc.
    split; [reflexivity|]. split; [exact Fs|]. split; [exact Ft|].
    rewrite !count_app.
    rewrite !(count_zero_of _ _ _ (session_event_not_cleanup _) Fs).
    rewrite (Hc FileAccessAgent), (Hc PythonExecAgent).
    unfold_hists. unfold setup_events. repeat split; reflexivity.
Qed.

Lemma read_error_is_fatal_witness :
  seeded w_read_fails "10 columns, 840 rows" /\
  cleanup_benign w_read_fails /\
  count (is_task PythonExecAgent) (trace w_read_fails) = 1 /\
  count (is_cleanup FileAccessAgent) (trace w_read_fails) = 1 /\
  count (is_cleanup PythonExecAgent) (trace w_read_fails) = 1 /\
  status w_read_fails = 1%Z.
Proof.
  assert (Hs : seeded w_read_fails "10 columns, 840 rows")
    by (repeat split; reflexivity).
  assert (Hb : cleanup_benign w_read_fails) by (intros a h; exact I).
  destruct (read_error_is_fatal w_read_fails) as [_ Hrun].
  destruct (Hrun "10 columns, 840 rows" (OtherException "UnicodeDecodeError")
              Hs Hb eq_refl eq_refl)
    as (evs & cevs & _ & _ & _ & Hcf & Hcp & Hst).
  split; [exact Hs|]. split; [exact Hb|]. split; [reflexivity|].
  split; [exact Hcf|]. split; [exact Hcp|exact Hst].
Defined.

(** ** The context is fixed before the first question *)

Lemma quiet_loop_event_body (w : world) (r : outcome string) :
  quiet loop_event (loop_body w r).
Proof.
  unfold loop_body. apply quiet_bind; [quiet_auto|intros _].
  apply quiet_bind.
  - apply quiet_try_except; [unfold py_input; quiet_auto|].
    intros e h Hh. unfold read_handler in Hh.
    destruct (is_EOFError e || is_KeyboardInterrupt e); [|discriminate].
    injection Hh as <-. quiet_auto.
  - intros [user_input|]; [|quiet_auto].
    destruct (lower user_input =? "exit"); [quiet_auto|].
    do 2 (apply quiet_bind; [quiet_auto|intros _]).
    apply quiet_bind; [|quiet_auto].
    apply quiet_try_except.
    + apply quiet_bind; [quiet_auto|intros v].
      apply quiet_bind; [destruct v; cbn [method_task]; quiet_auto|intros out].
      quiet_auto.
    + intros e h Hh. unfold task_handler in Hh.
      destruct (is_Exception e); [|discriminate].
      injection Hh as <-. quiet_auto.
Qed.

Lemma quiet_loop_event (w : world) (ins : list (outcome string)) :
  quiet loop_event (interactive_loop w ins).
Proof.
  induction ins as [|r rest IH]; cbn [interactive_loop].
  - apply quiet_bind; [apply quiet_loop_event_body|quiet_auto].
  - apply quiet_bind; [apply quiet_loop_event_body|].
    intros [|]; [exact IH|quiet_auto].
Qed.

Lemma split_after_prefix (p : event -> bool) (a b tr1 : list event)
      (x : event) (tr2 : list event) :
  a ++ b = tr1 ++ x :: tr2 ->
  p x = true ->
  count p a = 0 ->
  exists tr1', b = tr1' ++ x :: tr2.
Proof.
  revert tr1. induction a as [|y a IH]; intros tr1 E Hx Ha.
  - now exists tr1.
  - destruct (p y) eqn:Hy.
    + unfold count in Ha. cbn [filter] in Ha. rewrite Hy in Ha. discriminate Ha.
    + rewrite count_skip in Ha by exact Hy.
      destruct tr1 as [|z tr1]; cbn [app] in E; injection E as -> E.
      * congruence.
      * exact (IH tr1 E Hx Ha).
Qed.

(** X10.  Once the console has been read for the first time, the script
    calls no constructor and no [add_context]: the context of the
    code-execution agent is the one seeded before the first question, for
    the rest of the run. *)
Theorem context_fixed_before_questions (w : world) (tr1 tr2 : list event)
        (p : string) (r : outcome string) :
  trace w = tr1 ++ Input p r :: tr2 ->
  count is_add_context tr2 = 0 /\ count is_construct_call tr2 = 0.
Proof.
  intros E.
  destruct (seeded_of_reads w) as (out & Hs).
  { left. rewrite E, count_app.
    change (Input p r :: tr2) with ([Input p r] ++ tr2). rewrite count_app.
    cbn. lia. }
  destruct (trace_seeded w out Hs) as (cevs & ro & Ft & Ht).
  destruct (quiet_loop_event w (stdin w) (st_both (hist_seeded w out)))
    as (evs & Ev & Fl).
  rewrite Ev in Ht. cbn [extend history st_both] in Ht.
  rewrite <- app_assoc in Ht. rewrite Ht in E.
  destruct (split_after_prefix is_input _ _ _ _ _ E eq_refl) as (tr1' & Eb).
  { unfold_hists. unfold setup_events. reflexivity. }
  assert (Hsuffix : forall q, count q tr2 <= count q (evs ++ cevs ++ outer_events ro)).
  { intros q. rewrite Eb. change (Input p r :: tr2) with ([Input p r] ++ tr2).
    rewrite !count_app. lia. }
  destruct (teardown_counts cevs Ft) as (_ & _ & Hac & _).
  assert (Hcc : count is_construct_call cevs = 0).
  { apply (count_zero_of teardown_event); [|exact Ft].
    intros e; destruct e; cbn; congruence. }
  assert (Hl : count is_add_context evs = 0 /\ count is_construct_call evs = 0).
  { split; apply (count_zero_of loop_event); try exact Fl;
      intros e; destruct e; cbn; congruence. }
  assert (Ho : count is_add_context (outer_events ro) = 0 /\
               count is_construct_call (outer_events ro) = 0)
    by (destruct ro as [u|[]]; split; reflexivity).
  pose proof (Hsuffix is_add_context) as S1.
  pose proof (Hsuffix is_construct_call) as S2.
  rewrite !count_app in S1, S2.
  destruct Hl as [L1 L2]. destruct Ho as [O1 O2]. lia.
Qed.

Lemma context_fixed_before_questions_witness :
  exists tr1 tr2,
    trace (friendly [Returns "How many rows?"; Returns "exit"]) =
      tr1 ++ Input input_prompt (Returns "How many rows?") :: tr2 /\
    count is_add_context tr1 = 2 /\
    count is_add_context tr2 = 0 /\
    count is_construct_call tr2 = 0.
Proof.
  exists (firstn 12 (trace (friendly [Returns "How many rows?"; Returns "exit"]))),
         (skipn 13 (trace (friendly [Returns "How many rows?"; Returns "exit"]))).
  assert (E : trace (friendly [Returns "How many rows?"; Returns "exit"]) =
              firstn 12 (trace (friendly [Returns "How many rows?"; Returns "exit"])) ++
              Input input_prompt (Returns "How many rows?") ::
              skipn 13 (trace (friendly [Returns "How many rows?"; Returns "exit"])))
    by reflexivity.
  destruct (context_fixed_before_questions _ _ _ _ _ E) as [Ha Hc].
  split; [exact E|]. split; [reflexivity|]. split; [exact Ha|exact Hc].
Defined.

(** ** An interrupt while seeding *)

Lemma cleanup_event_not_outer_log (e : event) :
  cleanup_event e = true -> is_log_of msg_unexpected e = false.
Proof.
  destruct e as [| | [] s | | | | | | |]; cbn; try congruence.
  intros H. apply orb_true_iff in H as [H|H]; apply String.eqb_eq in H; now subst.
Qed.

(** X11.  When the user interrupts the file description or one of the two
    [add_context] calls, and no cleanup is interrupted: the loop is never
    entered, the teardown runs with one [cleanup()] per agent and logs
    nothing but cleanup errors, the outer handler prints the graceful
    message last, its error message is not logged anywhere in the run, and
    the status is 0. *)
Theorem seeding_interrupt_is_graceful (w : world) (h : list event) :
  agents_constructed w ->
  cleanup_benign w ->
  seeding_fails w KeyboardInterrupt h ->
  exists cevs,
    trace w = h ++ cevs ++ [Print msg_interrupted] /\
    forallb cleanup_event cevs = true /\
    count (is_cleanup FileAccessAgent) cevs = 1 /\
    count (is_cleanup PythonExecAgent) cevs = 1 /\
    count is_input (trace w) = 0 /\
    count (is_log_of msg_unexpected) (trace w) = 0 /\
    status w = 0%Z.
Proof.
  intros Hc Hb Hf.
  pose proof Hc as (Hi & Hx & _).
  pose proof (agents_session_seeding_fails w _ h Hc Hf) as E.
  destruct (run_with_both_agents w _ _ Hi Hx E)
    as (rc & cevs & Ht & Hst & Fc & Hcf & Hcp & _ & Hbn).
  rewrite (Hbn Hb) in Ht, Hst.
  cbn [finally_result outer_events outer_status is_KeyboardInterrupt] in Ht, Hst.
  exists cevs. rewrite Ht, Hst.
  destruct (teardown_counts cevs (cleanup_event_teardown cevs Fc)) as (_ & _ & _ & Hin).
  split; [reflexivity|]. split; [exact Fc|].
  split; [exact Hcf|]. split; [exact (Hcp (Hb FileAccessAgent))|].
  rewrite !count_app, Hin, (count_zero_of _ _ _ cleanup_event_not_outer_log Fc).
  destruct Hf as [(_ & ->)|[(out & _ & _ & ->)|(out & _ & _ & _ & ->)]];
    unfold_hists; unfold setup_events; repeat split; reflexivity.
Qed.

Lemma seeding_interrupt_is_graceful_witness :
  agents_constructed w_seeding_interrupted /\
  cleanup_benign w_seeding_interrupted /\
  count is_add_context (trace w_seeding_interrupted) = 2 /\
  count is_input (trace w_seeding_interrupted) = 0 /\
  count (is_log_of msg_unexpected) (trace w_seeding_interrupted) = 0 /\
  status w_seeding_interrupted = 0%Z.
Proof.
  assert (Hc : agents_constructed w_seeding_interrupted) by (repeat split; reflexivity).
  assert (Hb : cleanup_benign w_seeding_interrupted) by (intros a h; exact I).
  assert (Hf : seeding_fails w_seeding_interrupted KeyboardInterrupt
                 (hist_context w_seeding_interrupted "10 columns, 840 rows" ++
                  [AddContext PythonExecAgent "10 columns, 840 rows"
                     (Raises KeyboardInterrupt)])).
  { right. right. exists "10 columns, 840 rows". repeat split; reflexivity. }
  destruct (seeding_interrupt_is_graceful w_seeding_interrupted _ Hc Hb Hf)
    as (cevs & _ & _ & _ & _ & Hin & Hlog & Hst).
  split; [exact Hc|]. split; [exact Hb|]. split; [reflexivity|].
  split; [exact Hin|]. split; [exact Hlog|exact Hst].
Defined.
